(** * saic_ismart_client_ng: the authenticated-call lifecycle

    A shallow embedding of [saic_ismart_client_ng/api/base.py]
    ([AbstractSaicApi]: [login], [execute_api_call],
    [execute_api_call_with_event_id], [deserialize], [logout], and the two
    tenacity callbacks [saic_api_after_retry] and [saic_api_retry_policy])
    and of [saic_ismart_client_ng/net/client/api.py]
    ([SaicApiClient.encrypt_request]).

    Python objects with mutable attributes become an explicit [World] that
    every coroutine threads through; exceptions become the [Raised] result;
    the network and the clock are part of the world, so that a run can be
    evaluated on a scripted server. *)

From Stdlib Require Import ZArith NArith List String Ascii Bool Lia.
Import ListNotations.

Local Open Scope string_scope.
Local Open Scope Z_scope.

(** ** SHA-1 *)

Module SHA1.

Definition mask32 : Z := 0xFFFFFFFF.

(** A 32-bit word is a [Z] kept in [0, 2^32) by masking after each
    operation that can leave the range. *)
Definition w32 (x : Z) : Z := Z.land x mask32.

Definition add32 (x y : Z) : Z := w32 (x + y).

Definition rotl (n x : Z) : Z :=
  w32 (Z.lor (Z.shiftl x n) (Z.shiftr x (32 - n))).

Definition not32 (x : Z) : Z := Z.lxor x mask32.

Definition bytes_of_string (s : string) : list Z :=
  List.map (fun c => Z.of_N (N_of_ascii c)) (list_ascii_of_string s).

(** Big-endian bytes of [x], [n] of them. *)
Fixpoint be_bytes (n : nat) (x : Z) : list Z :=
  match n with
  | O => []
  | S k => (be_bytes k (Z.shiftr x 8) ++ [Z.land x 0xFF])%list
  end.

(** The message followed by 0x80, zeros up to 56 modulo 64, and the bit
    length on 8 bytes. *)
Definition pad (msg : list Z) : list Z :=
  let len := Z.of_nat (List.length msg) in
  let zeros := Z.to_nat ((55 - len) mod 64) in
  (msg ++ [0x80] ++ List.repeat 0 zeros ++ be_bytes 8 (8 * len))%list.

Fixpoint words (fuel : nat) (bs : list Z) : list Z :=
  match fuel, bs with
  | S k, b0 :: b1 :: b2 :: b3 :: rest =>
      (Z.shiftl b0 24 + Z.shiftl b1 16 + Z.shiftl b2 8 + b3) :: words k rest
  | _, _ => []
  end.

Fixpoint blocks (fuel : nat) (ws : list Z) : list (list Z) :=
  match fuel, ws with
  | S k, _ :: _ => List.firstn 16 ws :: blocks k (List.skipn 16 ws)
  | _, _ => []
  end.

(** The message schedule, most recent word first: with [w] holding
    [W(t-1) .. W(0)], the next word is
    [rotl 1 (W(t-3) xor W(t-8) xor W(t-14) xor W(t-16))]. *)
Fixpoint extend (k : nat) (w : list Z) : list Z :=
  match k with
  | O => w
  | S k' =>
      let x := Z.lxor (Z.lxor (List.nth 2 w 0) (List.nth 7 w 0))
                      (Z.lxor (List.nth 13 w 0) (List.nth 15 w 0)) in
      extend k' (rotl 1 x :: w)
  end.

Definition schedule (block : list Z) : list Z :=
  List.rev (extend 64 (List.rev block)).

Record hstate : Type := mk_hstate { ha : Z; hb : Z; hc : Z; hd : Z; he : Z }.

Definition round (st : hstate * Z) (wt : Z) : hstate * Z :=
  let '(mk_hstate a b c d e, t) := st in
  let '(f, k) :=
    if t <? 20 then (Z.lor (Z.land b c) (Z.land (not32 b) d), 0x5A827999)
    else if t <? 40 then (Z.lxor (Z.lxor b c) d, 0x6ED9EBA1)
    else if t <? 60 then
      (Z.lor (Z.lor (Z.land b c) (Z.land b d)) (Z.land c d), 0x8F1BBCDC)
    else (Z.lxor (Z.lxor b c) d, 0xCA62C1D6) in
  let temp := add32 (add32 (add32 (add32 (rotl 5 a) f) e) k) wt in
  (mk_hstate temp a (rotl 30 b) c d, t + 1).

Definition compress (h : hstate) (block : list Z) : hstate :=
  let '(mk_hstate a b c d e, _) :=
    List.fold_left round (schedule block) (h, 0) in
  mk_hstate (add32 (ha h) a) (add32 (hb h) b) (add32 (hc h) c)
            (add32 (hd h) d) (add32 (he h) e).

Definition initial : hstate :=
  mk_hstate 0x67452301 0xEFCDAB89 0x98BADCFE 0x10325476 0xC3D2E1F0.

Definition digest (msg : list Z) : hstate :=
  let bs := pad msg in
  let ws := words (List.length bs) bs in
  List.fold_left compress (blocks (List.length ws) ws) initial.

Definition hex_digit (d : Z) : ascii :=
  if d <? 10 then ascii_of_N (Z.to_N (48 + d))
  else ascii_of_N (Z.to_N (87 + d)).

Fixpoint hex (n : nat) (x : Z) : string :=
  match n with
  | O => EmptyString
  | S k => hex k (Z.shiftr x 4) ++ String (hex_digit (Z.land x 0xF)) EmptyString
  end.

Definition hexdigest (msg : list Z) : string :=
  let h := digest msg in
  hex 8 (ha h) ++ hex 8 (hb h) ++ hex 8 (hc h) ++ hex 8 (hd h) ++ hex 8 (he h).

End SHA1.

(** Modelled from the spec: [crypto_utils.sha1_hex_digest] is imported by
    [base.py] but its module is not part of the sources at hand; the
    specification calls it the SHA-1 hex digest of the password, so it is
    the lower-case hexadecimal SHA-1 of the string's bytes. *)
Definition sha1_hex_digest (content : string) : string :=
  SHA1.hexdigest (SHA1.bytes_of_string content).

(** ** Python values *)

#[local] Set Warnings "-register-all".

(** What [response.json()] can return. Numbers are the integers; a JSON
    number with a fraction becomes a Python float, which is outside this
    model. *)
Inductive json : Type :=
| JNull
| JBool (b : bool)
| JInt (n : Z)
| JStr (s : string)
| JArr (items : list json)
| JObj (fields : list (string * json)).

(** A [dict] with string keys, in insertion order. *)
Definition dict (V : Type) : Type := list (string * V).

Fixpoint dict_lookup {V : Type} (k : string) (d : dict V) : option V :=
  match d with
  | [] => None
  | (k', v) :: rest => if String.eqb k k' then Some v else dict_lookup k rest
  end.

(** [k in d] *)
Definition dict_mem {V : Type} (k : string) (d : dict V) : bool :=
  match dict_lookup k d with Some _ => true | None => false end.

(** [d.get(k, default)] *)
Definition dict_get {V : Type} (k : string) (default : V) (d : dict V) : V :=
  match dict_lookup k d with Some v => v | None => default end.

(** [d.update({k: v})]: the value is replaced where the key is, appended
    where it is not. *)
Fixpoint dict_update {V : Type} (k : string) (v : V) (d : dict V) : dict V :=
  match d with
  | [] => [(k, v)]
  | (k', v') :: rest =>
      if String.eqb k k' then (k', v) :: rest
      else (k', v') :: dict_update k v rest
  end.

(** [v == k] for a decoded JSON value [v] and an [int] literal [k]: Python's
    [bool] is a subclass of [int] ([True == 1], [False == 0]); [None],
    strings, lists and dicts are equal to no integer. *)
Definition py_eq_int (v : json) (k : Z) : bool :=
  match v with
  | JInt n => n =? k
  | JBool b => (if b then 1 else 0) =? k
  | _ => false
  end.

(** [v in (k1, k2, ...)] *)
Definition py_in_ints (v : json) (ks : list Z) : bool :=
  List.existsb (py_eq_int v) ks.

(** Truth value of an [Optional[str]]: [None] and the empty string are
    false. *)
Definition truthy_str (o : option string) : bool :=
  match o with
  | None => false
  | Some s => negb (String.eqb s "")
  end.

(** Truth value of an optional number: [None] and zero are false. *)
Definition truthy_num (o : option Z) : bool :=
  match o with
  | None => false
  | Some d => negb (d =? 0)
  end.

(** ** Exceptions *)

(** Modelled from the spec: [saic_ismart_client_ng/exceptions.py] is not
    part of the sources at hand. [deserialize] raises
    [SaicApiRetryException] inside a [try] whose first handler re-raises
    [SaicApiException] and whose second wraps every other [Exception], and
    [saic_api_retry_policy] tests for the retry and logout exceptions before
    the "generic" [SaicApiException]: the retry and logout exceptions are
    subclasses of [SaicApiException] (the specification's RetryRequested,
    AuthenticationRequired and ApplicationError kinds). Every exception of
    another class (transport errors of httpx, JSON and dacite decoding
    errors, AttributeError, TypeError, tenacity's RetryError) is
    [OtherException] with its text. Every exception here is an instance of
    [Exception]; those that are not ([asyncio.CancelledError],
    [KeyboardInterrupt]), which an [except Exception] lets through, are
    outside this model: nothing in it raises them. *)
Inductive Exn : Type :=
| SaicApiException (msg : json) (return_code : option json)
| SaicApiRetryException (msg : json) (event_id : string) (return_code : option json)
| SaicLogoutException (msg : json) (return_code : option json)
| OtherException (text : string).

(** [isinstance(e, SaicApiException)] *)
Definition is_SaicApiException (e : Exn) : bool :=
  match e with
  | OtherException _ => false
  | _ => true
  end.

(** [isinstance(e, SaicApiRetryException)] *)
Definition is_SaicApiRetryException (e : Exn) : bool :=
  match e with
  | SaicApiRetryException _ _ _ => true
  | _ => false
  end.

(** [isinstance(e, SaicLogoutException)] *)
Definition is_SaicLogoutException (e : Exn) : bool :=
  match e with
  | SaicLogoutException _ _ => true
  | _ => false
  end.

(** [str(e)], as far as the model keeps it. *)
Definition exn_text (e : Exn) : string :=
  match e with
  | OtherException t => t
  | SaicApiException (JStr m) _ => m
  | SaicApiRetryException (JStr m) _ _ => m
  | SaicLogoutException (JStr m) _ => m
  | _ => "error"
  end.

(** The specification's verdicts, read off the result of [deserialize]. *)
Inductive Verdict : Type := Success | Retryable | Fatal.

(** ** HTTP messages *)

Inductive RequestBody : Type :=
| NoBody
| FormBody (form : dict string)
| JsonBody (value : json).

Record Request : Type := mkRequest {
  req_method : string;
  req_url : string;
  req_params : dict string;
  req_headers : dict string;
  req_body : RequestBody
}.

(** An [httpx.Response]: [resp_json] is [None] where [response.json()]
    raises; header names are as httpx compares them, in lower case. *)
Record Response : Type := mkResponse {
  resp_json : option json;
  resp_text : string;
  resp_headers : dict string
}.

(** ** Configuration *)

(** [SaicApiConfiguration], the fields this module reads. Durations are in
    milliseconds (Python has them in seconds, possibly fractional), so that
    a request that takes less than a second can be told from one that takes
    none. *)
Record SaicApiConfiguration : Type := mkConfiguration {
  base_uri : string;
  username : string;
  password : string;
  username_is_email : bool;
  phone_country_code : string;
  relogin_delay : option Z;
  sms_delivery_delay : Z
}.

(** [LoginResp], the fields [login] reads. *)
Record LoginResp : Type := mkLoginResp {
  access_token : option string;
  expires_in : option Z
}.

(** ** The world *)

Inductive Client : Type := LoginClient | ApiClient.

(** What a run leaves behind: every call of the retried function, with the
    time it starts and the keyword argument it gets, and every request
    handed to the network, with the session as it is at that moment. *)
Inductive Event : Type :=
| EvAttempt (at_time : Z) (event_id : string)
| EvSend (client : Client) (req : Request)
         (token : option string) (expiration : option Z).

(** What the transport does with one request: after [latency] milliseconds
    it returns a response or raises. *)
Record Reply : Type := mkReply {
  latency : N;
  reply : Response + string
}.

(** The instance attributes of [AbstractSaicApi] that change
    ([api_client.user_token], [__token_expiration]), the clock, the number
    of requests each client has put on the wire, and the events so far. *)
Record World : Type := mkWorld {
  user_token : option string;
  token_expiration : option Z;
  clock : Z;
  login_sent : nat;
  api_sent : nat;
  trace : list Event
}.

(** What stays fixed during a run: the configuration, the dacite decoder of
    [LoginResp], and the two servers, each answering its n-th request. *)
Record Env : Type := mkEnv {
  configuration : SaicApiConfiguration;
  LoginResp_from_dict : json -> option LoginResp;
  login_server : nat -> Reply;
  api_server : nat -> Reply
}.

(** ** Coroutines *)

Inductive Result (A : Type) : Type :=
| Returned (a : A)
| Raised (e : Exn)
| OutOfFuel.

Arguments Returned {A} a.
Arguments Raised {A} e.
Arguments OutOfFuel {A}.

Definition M (A : Type) : Type := World -> Result A * World.

Definition ret {A : Type} (a : A) : M A := fun w => (Returned a, w).

Definition raise {A : Type} (e : Exn) : M A := fun w => (Raised e, w).

Definition diverge {A : Type} : M A := fun w => (OutOfFuel, w).

Definition bind {A B : Type} (m : M A) (k : A -> M B) : M B :=
  fun w =>
    match m w with
    | (Returned a, w') => k a w'
    | (Raised e, w') => (Raised e, w')
    | (OutOfFuel, w') => (OutOfFuel, w')
    end.

(** [try: m  except Exception as e: handler(e)] *)
Definition try_except {A : Type} (m : M A) (handler : Exn -> M A) : M A :=
  fun w =>
    match m w with
    | (Raised e, w') => handler e w'
    | other => other
    end.

Declare Scope coroutine_scope.
Delimit Scope coroutine_scope with coroutine.
Notation "x <- m ;; k" := (bind m (fun x => k))
  (at level 61, m at next level, right associativity) : coroutine_scope.
Notation "m ;; k" := (bind m (fun _ => k))
  (at level 61, right associativity) : coroutine_scope.
Local Open Scope coroutine_scope.

(** [time.monotonic()] and [datetime.datetime.now()] read the one clock. *)
Definition now : M Z := fun w => (Returned (clock w), w).

Definition advance (d : Z) (w : World) : World :=
  mkWorld (user_token w) (token_expiration w) (clock w + d)
          (login_sent w) (api_sent w) (trace w).

Definition log (e : Event) (w : World) : World :=
  mkWorld (user_token w) (token_expiration w) (clock w)
          (login_sent w) (api_sent w) (trace w ++ [e])%list.

(** [await asyncio.sleep(d)]: a delay that is not positive returns at
    once. *)
Definition asyncio_sleep (d : Z) : M unit :=
  fun w => (Returned tt, advance (Z.max 0 d) w).

(** ** [AbstractSaicApi] *)

Section Api.

Variable env : Env.

Let cfg : SaicApiConfiguration := configuration env.

(** [logout]: both attributes are set to [None]. *)
Definition logout : M unit :=
  fun w =>
    (Returned tt,
     mkWorld None None (clock w) (login_sent w) (api_sent w) (trace w)).

(** [self.login_client.client.send(req)]: the request goes out with no
    check of the session. *)
Definition login_client_send (req : Request) : M Response :=
  fun w =>
    let r := login_server env (login_sent w) in
    let w' :=
      mkWorld (user_token w) (token_expiration w)
              (clock w + Z.of_N (latency r))
              (S (login_sent w)) (api_sent w)
              (trace w ++ [EvSend LoginClient req (user_token w)
                                  (token_expiration w)])%list in
    match reply r with
    | inl response => (Returned response, w')
    | inr err => (Raised (OtherException err), w')
    end.

(** [SaicApiClient.encrypt_request], up to the call of the parent
    class. *)
Definition encrypt_request : M unit :=
  fun w =>
    if negb (truthy_str (user_token w)) then
      (Raised (SaicLogoutException
                 (JStr "Client not authenticated, please call login first")
                 (Some (JInt 401))), w)
    else (Returned tt, w).

(** Modelled from the spec: [AbstractSaicClient] (in
    [net/client/__init__.py]) is not part of the sources at hand; its
    [client] runs [encrypt_request] on a request before it is
    transmitted, so an unauthenticated call fails with nothing sent
    (specification, 4.3: the call "requires isAuthenticated()"). *)
Definition api_client_send (req : Request) : M Response :=
  encrypt_request ;;
  fun w =>
    let r := api_server env (api_sent w) in
    let w' :=
      mkWorld (user_token w) (token_expiration w)
              (clock w + Z.of_N (latency r))
              (login_sent w) (S (api_sent w))
              (trace w ++ [EvSend ApiClient req (user_token w)
                                  (token_expiration w)])%list in
    match reply r with
    | inl response => (Returned response, w')
    | inr err => (Raised (OtherException err), w')
    end.

(** [response.json()] *)
Definition response_json (response : Response) : M json :=
  match resp_json response with
  | Some j => ret j
  | None => raise (OtherException "Expecting value: line 1 column 1 (char 0)")
  end.

(** [json_data.get(key, default)]: only a dict has [get]. *)
Definition json_get (json_data : json) (key : string) (default : json) : M json :=
  match json_data with
  | JObj fields => ret (dict_get key default fields)
  | _ => raise (OtherException "object has no attribute 'get'")
  end.

(** ['data' in json_data], for the dict that [json_data] is once [get]
    has returned. *)
Definition json_has (json_data : json) (key : string) : bool :=
  match json_data with
  | JObj fields => dict_mem key fields
  | _ => false
  end.

(** [json_data['data']] *)
Definition json_item (json_data : json) (key : string) : M json :=
  match json_data with
  | JObj fields =>
      match dict_lookup key fields with
      | Some v => ret v
      | None => raise (OtherException key)
      end
  | _ => raise (OtherException "object is not subscriptable")
  end.

(** [dacite.from_dict(data_class, data)]: a data class is its decoder,
    [None] where dacite raises. *)
Definition from_dict {T : Type} (data_class : json -> option T) (data : json) : M T :=
  match data_class data with
  | Some v => ret v
  | None => raise (OtherException "wrong value type for field")
  end.

(** [deserialize], with the coroutine that [self.login()] runs as a
    parameter ([login] calls [deserialize] and [deserialize] calls
    [login]). *)
Definition deserialize {T : Type} (login : M LoginResp)
    (response : Response) (data_class : option (json -> option T))
  : M (option T) :=
  try_except
    (json_data <- response_json response ;;
     return_code <- json_get json_data "code" (JInt (-1)) ;;
     error_message <- json_get json_data "message" (JStr "Unknown error") ;;
     if py_eq_int return_code 401 then
       logout ;;
       (if truthy_num (relogin_delay cfg)
        then asyncio_sleep (match relogin_delay cfg with Some d => d | None => 0 end)
        else ret tt) ;;
       login ;;
       raise (SaicApiException error_message (Some return_code))
     else if py_in_ints return_code [2; 3; 7] then
       raise (SaicApiException error_message (Some return_code))
     else if dict_mem "event-id" (resp_headers response)
               && negb (json_has json_data "data") then
       let event_id := dict_get "event-id" "" (resp_headers response) in
       raise (SaicApiRetryException error_message event_id (Some return_code))
     else if py_eq_int return_code 4 then
       raise (SaicApiRetryException error_message "0" (Some return_code))
     else if negb (py_eq_int return_code 0) then
       raise (SaicApiException error_message (Some return_code))
     else
       match data_class with
       | None => ret None
       | Some dc =>
           if json_has json_data "data" then
             data <- json_item json_data "data" ;;
             v <- from_dict dc data ;;
             ret (Some v)
           else
             raise (SaicApiException
                      (JStr ("Failed to deserialize response, missing 'data' field: "
                             ++ resp_text response)) None)
       end)
    (fun e =>
       if is_SaicApiException e then raise e
       else
         raise (SaicApiException
                  (JStr ("Failed to deserialize response: " ++ exn_text e
                         ++ ". Original json was " ++ resp_text response))
                  None)).

Definition firebase_device_id : string :=
  "cqSHOMG1SmK4k-fzAeK6hr:APA91bGtGihOG5SEQ9hPx3Dtr9o9mQguNiKZrQzboa-1C_UBlRZYdFcMmdfLvh9Q_xA8A0dGFIjkMhZbdIXOYnKfHCeWafAfLXOrxBS3N18T4Slr-x9qpV6FHLMhE9s7I6s89k9lU7DD".

(** The [form_body] of [login]. *)
Definition form_body : dict string :=
  [ ("grant_type", "password");
    ("username", username cfg);
    ("password", sha1_hex_digest (password cfg));
    ("scope", "all");
    ("deviceId", firebase_device_id ++ "###europecar");
    ("deviceType", "1");
    ("loginType", if username_is_email cfg then "2" else "1");
    ("countryCode", if username_is_email cfg then "" else phone_country_code cfg) ].

(** The request that [login] builds. *)
Definition login_request : Request :=
  mkRequest "POST" (base_uri cfg ++ "oauth/token") []
            [ ("Content-Type", "application/x-www-form-urlencoded");
              ("Accept", "application/json") ]
            (FormBody form_body).

Definition set_session (token : option string) (expiration : option Z) : M unit :=
  fun w =>
    (Returned tt,
     mkWorld token expiration (clock w) (login_sent w) (api_sent w) (trace w)).

(** [login]. The fuel bounds the chain of logins that a server answering
    every login with code 401 keeps going. *)
Fixpoint login (fuel : nat) : M LoginResp :=
  match fuel with
  | O => diverge
  | S fuel' =>
      response <- login_client_send login_request ;;
      decoded <- deserialize (login fuel') response (Some (LoginResp_from_dict env)) ;;
      match decoded with
      | None => raise (OtherException "'NoneType' object has no attribute 'access_token'")
      | Some result =>
          fun w =>
            let w1 := mkWorld (access_token result) (token_expiration w) (clock w)
                              (login_sent w) (api_sent w) (trace w) in
            match expires_in result with
            | None =>
                (Raised (OtherException "unsupported type for timedelta seconds component: NoneType"),
                 w1)
            | Some seconds =>
                (Returned result,
                 mkWorld (access_token result) (Some (clock w + 1000 * seconds))
                         (clock w) (login_sent w) (api_sent w) (trace w))
            end
      end
  end.

(** [path[1:] if path.startswith('/') else path] *)
Definition strip_leading_slash (path : string) : string :=
  match path with
  | String "/" rest => rest
  | _ => path
  end.

(** [execute_api_call]; [body] is what [asdict(body)] gives. *)
Definition execute_api_call {T : Type} (fuel : nat)
    (method path : string) (body : option json)
    (out_type : option (json -> option T))
    (params : dict string) (headers : dict string)
  : M (option T) :=
  let url := base_uri cfg ++ strip_leading_slash path in
  let req :=
    mkRequest method url params headers
              (match body with Some b => JsonBody b | None => NoBody end) in
  response <- api_client_send req ;;
  deserialize (login fuel) response out_type.

End Api.

(** ** tenacity *)

(** [retry_state.outcome], a finished future. *)
Inductive Outcome (A : Type) : Type :=
| Succeeded (a : A)
| Failed (e : Exn).

Arguments Succeeded {A} a.
Arguments Failed {A} e.

(** [RetryCallState], the attributes the callbacks and the stop condition
    read. *)
Record RetryCallState (A : Type) : Type := mkRetryCallState {
  kwargs : dict string;
  outcome : Outcome A;
  start_time : Z;
  outcome_timestamp : Z
}.

Arguments mkRetryCallState {A} _ _ _ _.
Arguments kwargs {A} _.
Arguments outcome {A} _.
Arguments start_time {A} _.
Arguments outcome_timestamp {A} _.

(** [retry_state.seconds_since_start], in milliseconds. *)
Definition since_start {A : Type} (retry_state : RetryCallState A) : Z :=
  outcome_timestamp retry_state - start_time retry_state.

(** [tenacity.stop_after_delay(max_delay)]: stop when the time from the
    first attempt is [>=] the limit, given in seconds. *)
Definition stop_after_delay {A : Type} (max_delay : Z)
    (retry_state : RetryCallState A) : bool :=
  1000 * max_delay <=? since_start retry_state.

(** [tenacity.wait_fixed(wait)] *)
Definition wait_fixed {A : Type} (wait : Z) (retry_state : RetryCallState A) : Z :=
  wait.

(** [saic_api_after_retry]: the new value of [retry_state.kwargs], the dict
    that the next call of the retried function receives. *)
Definition saic_api_after_retry {A : Type} (retry_state : RetryCallState A)
  : dict string :=
  match outcome retry_state with
  | Failed (SaicApiRetryException _ event_id _) =>
      if dict_mem "event_id" (kwargs retry_state)
      then dict_update "event_id" event_id (kwargs retry_state)
      else kwargs retry_state
  | _ => kwargs retry_state
  end.

(** [saic_api_retry_policy] *)
Definition saic_api_retry_policy {A : Type} (retry_state : RetryCallState A)
  : bool :=
  match outcome retry_state with
  | Failed wrapped_exception =>
      if is_SaicApiRetryException wrapped_exception then true
      else if is_SaicLogoutException wrapped_exception then true
      else if is_SaicApiException wrapped_exception then false
      else false
  | Succeeded _ => false
  end.

(** [fut.result()] *)
Definition future_result {A : Type} (o : Outcome A) : M A :=
  match o with
  | Succeeded a => ret a
  | Failed e => raise e
  end.

(** [RetryError.reraise()] *)
Definition reraise {A : Type} (o : Outcome A) : M A :=
  match o with
  | Failed e => raise e
  | Succeeded _ => raise (OtherException "RetryError")
  end.

(** One call of the retried function, its result or exception stored as
    the outcome. *)
Definition attempt {A : Type} (m : M A) : M (Outcome A) :=
  fun w =>
    match m w with
    | (Returned a, w') => (Returned (Succeeded a), w')
    | (Raised e, w') => (Returned (Failed e), w')
    | (OutOfFuel, w') => (OutOfFuel, w')
    end.

(** The loop of [tenacity.AsyncRetrying.__call__] for a retrying object
    built with [stop], [wait], [retry], [after] and [reraise=True]: call the
    function; unless [retry] asks for another call, hand over the result or
    the exception; otherwise run [after], and stop with the last attempt
    re-raised if [stop] says so, else sleep for [wait] and call again with
    [retry_state.kwargs]. [rounds] bounds the number of calls. *)
Fixpoint retrying {A : Type} (rounds : nat)
    (stop : RetryCallState A -> bool) (wait : RetryCallState A -> Z)
    (retry : RetryCallState A -> bool)
    (after : RetryCallState A -> dict string)
    (fn : dict string -> M A) (started : Z) (kw : dict string) : M A :=
  match rounds with
  | O => diverge
  | S rounds' =>
      fut <- attempt (fn kw) ;;
      finished <- now ;;
      let retry_state := mkRetryCallState kw fut started finished in
      if negb (retry retry_state) then future_result fut
      else
        let kw' := after retry_state in
        if stop retry_state then reraise fut
        else
          asyncio_sleep (wait retry_state) ;;
          retrying rounds' stop wait retry after fn started kw'
  end.

Section Polling.

Variable env : Env.

(** [execute_api_call_with_event_id_inner]: [headers or dict()] with the
    ['event-id'] entry set. When the caller's dict is not empty it is
    that dict which [update] changes, and the next call finds the entry
    in it; setting the entry again gives the same dict as setting it in
    the caller's original one. *)
Definition execute_api_call_with_event_id_inner {T : Type} (fuel : nat)
    (method path : string) (body : option json)
    (out_type : option (json -> option T))
    (params : dict string) (headers : option (dict string))
    (kw : dict string) : M (option T) :=
  match dict_lookup "event_id" kw with
  | None => raise (OtherException "missing 1 required keyword-only argument: 'event_id'")
  | Some event_id =>
      (fun w => (Returned tt, log (EvAttempt (clock w) event_id) w)) ;;
      let actual_headers :=
        dict_update "event-id" event_id
                    (match headers with Some h => h | None => [] end) in
      execute_api_call env fuel method path body out_type params actual_headers
  end.

(** [execute_api_call_with_event_id] *)
Definition execute_api_call_with_event_id {T : Type} (rounds fuel : nat)
    (method path : string) (body : option json)
    (out_type : option (json -> option T))
    (params : dict string) (headers : option (dict string))
  : M (option T) :=
  started <- now ;;
  retrying rounds
           (stop_after_delay 30)
           (wait_fixed (sms_delivery_delay (configuration env)))
           saic_api_retry_policy
           saic_api_after_retry
           (execute_api_call_with_event_id_inner
              fuel method path body out_type params headers)
           started
           [("event_id", "0")].

End Polling.

(** ** Reading a run *)

(** The verdict that the result of a call stands for. *)
Definition verdict_of {A : Type} (r : Result A) : option Verdict :=
  match r with
  | Returned _ => Some Success
  | Raised (SaicApiRetryException _ _ _) => Some Retryable
  | Raised _ => Some Fatal
  | OutOfFuel => None
  end.

Definition is_attempt (e : Event) : bool :=
  match e with EvAttempt _ _ => true | _ => false end.

Definition is_send (e : Event) : bool :=
  match e with EvSend _ _ _ _ => true | _ => false end.

(** The number of calls of the retried function in a trace. *)
Definition attempts (tr : list Event) : nat :=
  List.length (List.filter is_attempt tr).

(** The requests handed to the network in a trace. *)
Definition sends (tr : list Event) : list Event := List.filter is_send tr.

Definition initial_world : World := mkWorld None None 0 0 0 [].

(** A world in which [login] has stored [token]. *)
Definition logged_in (token : string) (expiration : Z) : World :=
  mkWorld (Some token) (Some expiration) 0 0 0 [].

Definition always (r : Response) (ms : N) : nat -> Reply :=
  fun _ => mkReply ms (inl r).

Definition envelope (fields : dict json) (headers : dict string) : Response :=
  mkResponse (Some (JObj fields)) "" headers.

Definition sample_configuration : SaicApiConfiguration :=
  mkConfiguration "https://example/api/" "a@b.com" "pw" true "" None 5000.


(** [deserialize] as the handler of its [try] sees it. *)
Definition wrap_exception (response : Response) (e : Exn) : Exn :=
  if is_SaicApiException e then e
  else SaicApiException
         (JStr ("Failed to deserialize response: " ++ exn_text e
                ++ ". Original json was " ++ resp_text response))
         None.

(** The world in which the re-login after a code 401 starts: logged out,
    and later by the configured delay. *)
Definition before_relogin (env : Env) (w : World) : World :=
  let w1 := mkWorld None None (clock w) (login_sent w) (api_sent w) (trace w) in
  if truthy_num (relogin_delay (configuration env))
  then advance (Z.max 0 (match relogin_delay (configuration env) with
                         | Some d => d
                         | None => 0
                         end)) w1
  else w1.

(** [w'] has the events of [w] and possibly more. *)
Definition extends (w w' : World) : Prop :=
  exists tail, trace w' = (trace w ++ tail)%list.

(** [logout] called [n] times in a row. *)
Fixpoint logout_times (n : nat) : M unit :=
  match n with
  | O => ret tt
  | S k => logout ;; logout_times k
  end.

(** ** Sample runs *)

Definition identity_class : option (json -> option json) := Some (fun j => Some j).

(** A decoder of [LoginResp] for the fields [login] reads. *)
Definition sample_LoginResp_from_dict (data : json) : option LoginResp :=
  match data with
  | JObj fields =>
      match dict_lookup "access_token" fields, dict_lookup "expires_in" fields with
      | Some (JStr t), Some (JInt n) => Some (mkLoginResp (Some t) (Some n))
      | _, _ => None
      end
  | _ => None
  end.

Definition login_ok : Response :=
  envelope [("code", JInt 0);
            ("data", JObj [("access_token", JStr "fresh"); ("expires_in", JInt 3600)])]
           [].

(** The login server grants a token; the API server answers every request
    with [r] after [ms] milliseconds. *)
Definition sample_env (r : Response) (ms : N) : Env :=
  mkEnv sample_configuration sample_LoginResp_from_dict
        (always login_ok 0) (always r ms).

(** As [sample_env], with a login server that answers every login with
    [login_reply]. *)
Definition relogin_env (login_reply api_reply : Response) : Env :=
  mkEnv sample_configuration sample_LoginResp_from_dict
        (always login_reply 0) (always api_reply 0).

Definition phone_configuration : SaicApiConfiguration :=
  mkConfiguration "https://example/api/" "5551234" "pw" false "49" None 5000.

Definition phone_env : Env :=
  mkEnv phone_configuration sample_LoginResp_from_dict
        (always login_ok 0) (always login_ok 0).

(** ** The time budget *)

(** The number of waits of [d] milliseconds that fit before the budget of
    30 seconds is used up, [elapsed] milliseconds into it. *)
Definition waits_left (d elapsed : Z) : Z :=
  Z.max 0 ((30000 - elapsed + d - 1) / d).


(** The retry exception, the specification's RetryRequested. *)
Definition is_retry_signal {A : Type} (r : Result A) : bool :=
  match r with
  | Raised e => is_SaicApiRetryException e
  | _ => false
  end.

(** The request that one attempt of a polling call builds. *)
Definition polling_request (env : Env) (method path : string) (body : option json)
    (params : dict string) (headers : option (dict string)) (event_id : string)
  : Request :=
  mkRequest method (base_uri (configuration env) ++ strip_leading_slash path) params
            (dict_update "event-id" event_id
                         (match headers with Some h => h | None => [] end))
            (match body with Some b => JsonBody b | None => NoBody end).

(** The world once an attempt that started in [w] has put [req] on the
    wire and the transport has come back. *)
Definition attempt_sent (env : Env) (w : World) (event_id : string) (req : Request)
  : World :=
  mkWorld (user_token w) (token_expiration w)
          (clock w + Z.of_N (latency (api_server env (api_sent w))))
          (login_sent w) (S (api_sent w))
          ((trace w ++ [EvAttempt (clock w) event_id])
             ++ [EvSend ApiClient req (user_token w) (token_expiration w)])%list.

Definition not_authenticated : Exn :=
  SaicLogoutException (JStr "Client not authenticated, please call login first")
                      (Some (JInt 401)).

(** A coroutine that leaves the events it finds in place. *)
Definition appending {A : Type} (m : M A) : Prop :=
  forall w, extends w (snd (m w)).

(** A server whose first answer is [first] and whose later answers are
    [later]. *)
Definition first_then (first later : Response) (ms : N) : nat -> Reply :=
  fun n => match n with
           | O => mkReply ms (inl first)
           | S _ => mkReply ms (inl later)
           end.

(** ** More readings of a run *)

(** What [login] does with the decoded answer: the token is stored first,
    the expiration after it. *)
Definition store_login_result (decoded : option LoginResp) : M LoginResp :=
  match decoded with
  | None => raise (OtherException "'NoneType' object has no attribute 'access_token'")
  | Some result =>
      fun w =>
        let w1 := mkWorld (access_token result) (token_expiration w) (clock w)
                          (login_sent w) (api_sent w) (trace w) in
        match expires_in result with
        | None =>
            (Raised (OtherException "unsupported type for timedelta seconds component: NoneType"),
             w1)
        | Some seconds =>
            (Returned result,
             mkWorld (access_token result) (Some (clock w + 1000 * seconds))
                     (clock w) (login_sent w) (api_sent w) (trace w))
        end
  end.

(** The world once [login], started in [w], has put its request on the
    wire and the transport has come back. *)
Definition login_sent_world (env : Env) (w : World) : World :=
  mkWorld (user_token w) (token_expiration w)
          (clock w + Z.of_N (latency (login_server env (login_sent w))))
          (S (login_sent w)) (api_sent w)
          (trace w ++ [EvSend LoginClient (login_request env)
                              (user_token w) (token_expiration w)])%list.

(** The world once a call of [execute_api_call], started in [w], has put
    [req] on the wire and the transport has come back. *)
Definition api_sent_world (env : Env) (w : World) (req : Request) : World :=
  mkWorld (user_token w) (token_expiration w)
          (clock w + Z.of_N (latency (api_server env (api_sent w))))
          (login_sent w) (S (api_sent w))
          (trace w ++ [EvSend ApiClient req (user_token w) (token_expiration w)])%list.

(** The request that [execute_api_call] builds. *)
Definition api_request (env : Env) (method path : string) (body : option json)
    (params headers : dict string) : Request :=
  mkRequest method (base_uri (configuration env) ++ strip_leading_slash path)
            params headers
            (match body with Some b => JsonBody b | None => NoBody end).

(** A result that [saic_api_retry_policy] does not retry: a value, or an
    exception that is neither the retry nor the logout exception. *)
Definition not_retried {A : Type} (r : Result A) : bool :=
  match r with
  | Returned _ => true
  | Raised e => negb (is_SaicApiRetryException e || is_SaicLogoutException e)
  | OutOfFuel => false
  end.

(** The envelope has the code [k], as [==] sees it. *)
Definition has_code (fields : dict json) (k : Z) : bool :=
  py_eq_int (dict_get "code" (JInt (-1)) fields) k.

(** The test that sends an envelope to the retry branch whatever its code,
    once the codes 401, 2, 3 and 7 are excluded. *)
Definition pending (response : Response) (fields : dict json) : bool :=
  dict_mem "event-id" (resp_headers response) && negb (dict_mem "data" fields).

(** A coroutine that does not turn the clock back and that makes no call
    of the retried function. *)
Definition steady {A : Type} (m : M A) : Prop :=
  forall w,
    clock w <= clock (snd (m w))
    /\ attempts (trace (snd (m w))) = attempts (trace w).


(** * Properties *)

Example sha1_abc :
  sha1_hex_digest "abc" = "a9993e364706816aba3e25717850c26c9cd0d89d".
Proof. vm_compute. reflexivity. Qed.

Example sha1_empty :
  sha1_hex_digest "" = "da39a3ee5e6b4b0d3255bfef95601890afd80709".
Proof. vm_compute. reflexivity. Qed.

Example sha1_two_blocks :
  sha1_hex_digest (String.concat "" (List.repeat "a" 56))
  = "c2db330f6083854c99d4b5bfb6e8f29f201be699".
Proof. vm_compute. reflexivity. Qed.

(** ** Dictionaries *)

Lemma dict_lookup_update_same {V : Type} (k : string) (v : V) (d : dict V) :
  dict_lookup k (dict_update k v d) = Some v.
Proof.
  induction d as [|[k' v'] rest IH]; simpl.
  - now rewrite String.eqb_refl.
  - destruct (String.eqb k k') eqn:E; simpl; rewrite E; auto.
Qed.

Lemma dict_update_twice {V : Type} (k : string) (v1 v2 : V) (d : dict V) :
  dict_update k v2 (dict_update k v1 d) = dict_update k v2 d.
Proof.
  induction d as [|[k' v'] rest IH]; simpl.
  - now rewrite String.eqb_refl.
  - destruct (String.eqb k k') eqn:E; simpl; rewrite E; congruence.
Qed.

Lemma dict_mem_update {V : Type} (k : string) (v : V) (d : dict V) :
  dict_mem k (dict_update k v d) = true.
Proof. unfold dict_mem. now rewrite dict_lookup_update_same. Qed.

(** ** The classifier *)

Section Classifier.

Variable env : Env.
Context {T : Type}.
Variable login : M LoginResp.
Variable response : Response.
Variable data_class : option (json -> option T).

(** What [deserialize] does with a body that is a JSON object, branch by
    branch, the handler of the [try] applied. *)
Lemma deserialize_object (fields : dict json) (w : World) :
  resp_json response = Some (JObj fields) ->
  let return_code := dict_get "code" (JInt (-1)) fields in
  let error_message := dict_get "message" (JStr "Unknown error") fields in
  deserialize env login response data_class w =
    if py_eq_int return_code 401 then
      match login (before_relogin env w) with
      | (Returned _, w') =>
          (Raised (SaicApiException error_message (Some return_code)), w')
      | (Raised e, w') => (Raised (wrap_exception response e), w')
      | (OutOfFuel, w') => (OutOfFuel, w')
      end
    else if py_in_ints return_code [2; 3; 7] then
      (Raised (SaicApiException error_message (Some return_code)), w)
    else if dict_mem "event-id" (resp_headers response)
              && negb (dict_mem "data" fields) then
      (Raised (SaicApiRetryException error_message
                 (dict_get "event-id" "" (resp_headers response))
                 (Some return_code)), w)
    else if py_eq_int return_code 4 then
      (Raised (SaicApiRetryException error_message "0" (Some return_code)), w)
    else if negb (py_eq_int return_code 0) then
      (Raised (SaicApiException error_message (Some return_code)), w)
    else
      match data_class with
      | None => (Returned None, w)
      | Some dc =>
          match dict_lookup "data" fields with
          | Some data =>
              match dc data with
              | Some v => (Returned (Some v), w)
              | None =>
                  (Raised (wrap_exception response
                             (OtherException "wrong value type for field")), w)
              end
          | None =>
              (Raised (SaicApiException
                         (JStr ("Failed to deserialize response, missing 'data' field: "
                                ++ resp_text response)) None), w)
          end
      end.
Proof.
  intros Hjson return_code error_message.
  unfold deserialize, try_except, bind, response_json, json_get, ret, raise.
  rewrite Hjson. fold return_code error_message.
  destruct (py_eq_int return_code 401).
  - unfold logout, before_relogin.
    destruct (truthy_num (relogin_delay (configuration env))); simpl;
      match goal with |- context [login ?x] => destruct (login x) as [[lr|e|] w'] end;
      try reflexivity; unfold wrap_exception; destruct (is_SaicApiException e); reflexivity.
  - destruct (py_in_ints return_code [2; 3; 7]); [reflexivity|].
    unfold json_has.
    destruct (dict_mem "event-id" (resp_headers response) && negb (dict_mem "data" fields));
      [reflexivity|].
    destruct (py_eq_int return_code 4); [reflexivity|].
    destruct (py_eq_int return_code 0); simpl; [|reflexivity].
    destruct data_class as [dc|]; [|reflexivity].
    unfold dict_mem, json_item, from_dict, ret, raise.
    destruct (dict_lookup "data" fields) as [data|]; [|reflexivity].
    destruct (dc data); reflexivity.
Qed.

(** A body that is not JSON, or JSON that is not an object, ends in the
    second handler. *)
Lemma deserialize_not_object (w : World) :
  match resp_json response with
  | Some (JObj _) => False
  | _ => True
  end ->
  exists text,
    deserialize env login response data_class w =
      (Raised (SaicApiException
                 (JStr ("Failed to deserialize response: " ++ text
                        ++ ". Original json was " ++ resp_text response))
                 None), w).
Proof.
  intros H.
  unfold deserialize, try_except, bind, response_json, json_get, ret, raise.
  destruct (resp_json response) as [[ | | | | | ]|]; try contradiction;
    try (exists "object has no attribute 'get'"; reflexivity).
  exists "Expecting value: line 1 column 1 (char 0)"; reflexivity.
Qed.

End Classifier.

(** ** Events are only ever added *)

Lemma extends_refl (w : World) : extends w w.
Proof. exists []. now rewrite app_nil_r. Qed.

Lemma extends_trans (w1 w2 w3 : World) :
  extends w1 w2 -> extends w2 w3 -> extends w1 w3.
Proof.
  intros [t1 H1] [t2 H2]. exists (t1 ++ t2)%list.
  now rewrite H2, H1, app_assoc.
Qed.

Lemma extends_same_trace (w w' : World) : trace w' = trace w -> extends w w'.
Proof. intros H. exists []. now rewrite app_nil_r. Qed.

Lemma appending_ret {A : Type} (a : A) : appending (ret a).
Proof. intros w. apply extends_refl. Qed.

Lemma appending_raise {A : Type} (e : Exn) : appending (@raise A e).
Proof. intros w. apply extends_refl. Qed.

Lemma appending_diverge {A : Type} : appending (@diverge A).
Proof. intros w. apply extends_refl. Qed.

Lemma appending_bind {A B : Type} (m : M A) (k : A -> M B) :
  appending m -> (forall a, appending (k a)) -> appending (bind m k).
Proof.
  intros Hm Hk w. unfold bind. specialize (Hm w).
  destruct (m w) as [[a|e|] w']; simpl in *; auto.
  eapply extends_trans; [exact Hm | apply Hk].
Qed.

Lemma appending_try_except {A : Type} (m : M A) (h : Exn -> M A) :
  appending m -> (forall e, appending (h e)) -> appending (try_except m h).
Proof.
  intros Hm Hh w. unfold try_except. specialize (Hm w).
  destruct (m w) as [[a|e|] w']; simpl in *; auto.
  eapply extends_trans; [exact Hm | apply Hh].
Qed.

Lemma appending_attempt {A : Type} (m : M A) : appending m -> appending (attempt m).
Proof.
  intros Hm w. unfold attempt. specialize (Hm w).
  destruct (m w) as [[a|e|] w']; simpl in *; auto.
Qed.

Lemma appending_sleep (d : Z) : appending (asyncio_sleep d).
Proof. intros w. now apply extends_same_trace. Qed.

Lemma appending_now : appending now.
Proof. intros w. apply extends_refl. Qed.

Lemma appending_logout : appending logout.
Proof. intros w. now apply extends_same_trace. Qed.

Lemma appending_login_client_send (env : Env) (req : Request) :
  appending (login_client_send env req).
Proof.
  intros w. unfold login_client_send.
  destruct (reply (login_server env (login_sent w))); simpl; eexists; reflexivity.
Qed.

Lemma appending_api_client_send (env : Env) (req : Request) :
  appending (api_client_send env req).
Proof.
  apply appending_bind.
  - intros w. unfold encrypt_request.
    destruct (negb (truthy_str (user_token w))); apply extends_refl.
  - intros _ w. cbv zeta.
    destruct (reply (api_server env (api_sent w))); simpl; eexists; reflexivity.
Qed.

Lemma extends_before_relogin (env : Env) (w : World) :
  extends w (before_relogin env w).
Proof.
  apply extends_same_trace. unfold before_relogin.
  destruct (truthy_num (relogin_delay (configuration env))); reflexivity.
Qed.

Lemma appending_deserialize (env : Env) {T : Type} (login : M LoginResp)
    (response : Response) (data_class : option (json -> option T)) :
  appending login -> appending (deserialize env login response data_class).
Proof.
  intros Hlogin w.
  destruct (resp_json response) as [j|] eqn:Hjson.
  - destruct j as [ | | | | | fields].
    6:{ rewrite (deserialize_object env login response data_class fields w Hjson).
        cbv zeta.
        destruct (py_eq_int _ 401).
        - specialize (Hlogin (before_relogin env w)).
          destruct (login (before_relogin env w)) as [[lr|e|] w']; simpl in *;
            (eapply extends_trans; [apply extends_before_relogin | exact Hlogin]).
        - repeat match goal with
                 | |- context [if ?b then _ else _] => destruct b
                 | |- context [match ?o with Some _ => _ | None => _ end] => destruct o
                 end; apply extends_refl. }
    all: destruct (deserialize_not_object env login response data_class w) as [t Ht];
      [rewrite Hjson; exact I | rewrite Ht; apply extends_refl].
  - destruct (deserialize_not_object env login response data_class w) as [t Ht];
      [rewrite Hjson; exact I | rewrite Ht; apply extends_refl].
Qed.

Lemma appending_login (env : Env) (fuel : nat) : appending (login env fuel).
Proof.
  induction fuel as [|fuel IH].
  - apply appending_diverge.
  - simpl. apply appending_bind; [apply appending_login_client_send|].
    intros response. apply appending_bind; [now apply appending_deserialize|].
    intros [result|]; [|apply appending_raise].
    intros w. apply extends_same_trace.
    destruct (expires_in result); reflexivity.
Qed.

(** The first thing [login] does is to send its request, with the session
    as it finds it. *)
Lemma login_sends_first (env : Env) (fuel : nat) (w : World) :
  exists tail,
    trace (snd (login env (S fuel) w))
    = (trace w ++ EvSend LoginClient (login_request env)
                         (user_token w) (token_expiration w) :: tail)%list.
Proof.
  change (login env (S fuel)) with
    (bind (login_client_send env (login_request env))
       (fun response =>
          bind (deserialize env (login env fuel) response
                            (Some (LoginResp_from_dict env)))
            (fun decoded =>
               match decoded with
               | None => raise (OtherException "'NoneType' object has no attribute 'access_token'")
               | Some result =>
                   fun w =>
                     let w1 := mkWorld (access_token result) (token_expiration w) (clock w)
                                       (login_sent w) (api_sent w) (trace w) in
                     match expires_in result with
                     | None =>
                         (Raised (OtherException "unsupported type for timedelta seconds component: NoneType"),
                          w1)
                     | Some seconds =>
                         (Returned result,
                          mkWorld (access_token result) (Some (clock w + 1000 * seconds))
                                  (clock w) (login_sent w) (api_sent w) (trace w))
                     end
               end))).
  unfold bind at 1. unfold login_client_send.
  destruct (reply (login_server env (login_sent w))) as [response|err].
  - match goal with
    | |- context [bind ?m ?k ?w1] =>
        assert (H : extends w1 (snd (bind m k w1)))
    end.
    { apply appending_bind; [apply appending_deserialize, appending_login|].
      intros [result|]; [|apply appending_raise].
      intros w0. apply extends_same_trace.
      destruct (expires_in result); reflexivity. }
    destruct H as [tail H]. exists tail. rewrite H. simpl.
    now rewrite <- app_assoc.
  - exists []. reflexivity.
Qed.

Lemma appending_execute_api_call (env : Env) {T : Type} (fuel : nat)
    (method path : string) (body : option json)
    (out_type : option (json -> option T)) (params headers : dict string) :
  appending (execute_api_call env fuel method path body out_type params headers).
Proof.
  apply appending_bind; [apply appending_api_client_send|].
  intros response. apply appending_deserialize, appending_login.
Qed.

Lemma appending_retrying {A : Type} (rounds : nat)
    (stop : RetryCallState A -> bool) (wait : RetryCallState A -> Z)
    (retry : RetryCallState A -> bool) (after : RetryCallState A -> dict string)
    (fn : dict string -> M A) (started : Z) :
  (forall kw, appending (fn kw)) ->
  forall kw, appending (retrying rounds stop wait retry after fn started kw).
Proof.
  intros Hfn. induction rounds as [|rounds IH]; intros kw.
  - apply appending_diverge.
  - simpl. apply appending_bind; [apply appending_attempt, Hfn|].
    intros fut. apply appending_bind; [apply appending_now|].
    intros finished.
    destruct (negb (retry _)).
    + destruct fut; [apply appending_ret | apply appending_raise].
    + destruct (stop _).
      * destruct fut; apply appending_raise.
      * apply appending_bind; [apply appending_sleep|]. intros _. apply IH.
Qed.

Lemma appending_inner (env : Env) {T : Type} (fuel : nat)
    (method path : string) (body : option json)
    (out_type : option (json -> option T))
    (params : dict string) (headers : option (dict string)) (kw : dict string) :
  appending (execute_api_call_with_event_id_inner
               env fuel method path body out_type params headers kw).
Proof.
  unfold execute_api_call_with_event_id_inner.
  destruct (dict_lookup "event_id" kw) as [event_id|]; [|apply appending_raise].
  apply appending_bind.
  - intros w. eexists. reflexivity.
  - intros _. apply appending_execute_api_call.
Qed.

(** ** Verdicts of the classifier *)

(** C3 (as stated, refuted): an envelope with code 0 and no [data] field,
    a typed result expected, is classified Retryable, not Fatal, when the
    response carries an event-id header. *)
Lemma C3_counterexample :
  let response := envelope [("code", JInt 0)] [("event-id", "abc")] in
  let run := deserialize (sample_env response 0) (login (sample_env response 0) 1)
                         response identity_class (logged_in "tok" 100000) in
  fst run = Raised (SaicApiRetryException (JStr "Unknown error") "abc" (Some (JInt 0)))
  /\ verdict_of (fst run) <> Some Fatal.
Proof. vm_compute. split; [reflexivity | discriminate]. Qed.

(** C3 (amended): for every envelope with code 0 that lacks a [data] field
    and whose response carries no event-id header, when a typed result was
    expected, classification yields Fatal with the "missing 'data' field"
    error, and nothing else changes. *)
Theorem C3_code_0_without_data_is_fatal :
  forall (env : Env) (T : Type) (login : M LoginResp) (response : Response)
         (dc : json -> option T) (fields : dict json) (w : World),
    resp_json response = Some (JObj fields) ->
    dict_lookup "code" fields = Some (JInt 0) ->
    dict_mem "data" fields = false ->
    dict_mem "event-id" (resp_headers response) = false ->
    let run := deserialize env login response (Some dc) w in
    fst run = Raised (SaicApiException
                        (JStr ("Failed to deserialize response, missing 'data' field: "
                               ++ resp_text response)) None)
    /\ verdict_of (fst run) = Some Fatal
    /\ snd run = w.
Proof.
  intros env T login response dc fields w Hjson Hcode Hdata Hhdr run.
  subst run. rewrite (deserialize_object env login response (Some dc) fields w Hjson).
  assert (Hget : dict_get "code" (JInt (-1)) fields = JInt 0)
    by (unfold dict_get; now rewrite Hcode).
  rewrite Hget, Hhdr. simpl.
  unfold dict_mem in Hdata.
  destruct (dict_lookup "data" fields); [discriminate|].
  simpl. repeat split; reflexivity.
Qed.

Lemma C3_witness :
  let response := mkResponse (Some (JObj [("code", JInt 0)])) "{code: 0}" [] in
  let run := deserialize (sample_env response 0) (login (sample_env response 0) 1)
                         response identity_class (logged_in "tok" 100000) in
  fst run = Raised (SaicApiException
                      (JStr ("Failed to deserialize response, missing 'data' field: "
                             ++ "{code: 0}")) None)
  /\ verdict_of (fst run) = Some Fatal
  /\ snd run = logged_in "tok" 100000.
Proof.
  intros response.
  exact (C3_code_0_without_data_is_fatal
           (sample_env response 0) json (login (sample_env response 0) 1) response
           (fun j => Some j) [("code", JInt 0)] (logged_in "tok" 100000)
           eq_refl eq_refl eq_refl eq_refl).
Defined.

(** C6: for every envelope with code in {2, 3, 7}, classification yields
    Fatal with the server's message passed through, and the world, so the
    bearer token and its expiration, is left as it was. *)
Theorem C6_codes_2_3_7_fatal_session_untouched :
  forall (env : Env) (T : Type) (login : M LoginResp) (response : Response)
         (data_class : option (json -> option T)) (fields : dict json)
         (c : Z) (w : World),
    resp_json response = Some (JObj fields) ->
    dict_lookup "code" fields = Some (JInt c) ->
    c = 2 \/ c = 3 \/ c = 7 ->
    let run := deserialize env login response data_class w in
    fst run = Raised (SaicApiException
                        (dict_get "message" (JStr "Unknown error") fields)
                        (Some (JInt c)))
    /\ verdict_of (fst run) = Some Fatal
    /\ snd run = w
    /\ user_token (snd run) = user_token w
    /\ token_expiration (snd run) = token_expiration w.
Proof.
  intros env T login response data_class fields c w Hjson Hcode Hc run.
  subst run. rewrite (deserialize_object env login response data_class fields w Hjson).
  assert (Hget : dict_get "code" (JInt (-1)) fields = JInt c)
    by (unfold dict_get; now rewrite Hcode).
  rewrite Hget.
  destruct Hc as [-> | [-> | ->]]; simpl; repeat split; reflexivity.
Qed.

Lemma C6_witness :
  let response := envelope [("code", JInt 3); ("message", JStr "vehicle is offline")] [] in
  let w := logged_in "tok" 100000 in
  let run := deserialize (sample_env response 0) (login (sample_env response 0) 1)
                         response identity_class w in
  fst run = Raised (SaicApiException (JStr "vehicle is offline") (Some (JInt 3)))
  /\ verdict_of (fst run) = Some Fatal
  /\ snd run = w
  /\ user_token (snd run) = Some "tok"
  /\ token_expiration (snd run) = Some 100000.
Proof.
  intros response w.
  exact (C6_codes_2_3_7_fatal_session_untouched
           (sample_env response 0) json (login (sample_env response 0) 1) response
           identity_class
           [("code", JInt 3); ("message", JStr "vehicle is offline")] 3 w
           eq_refl eq_refl (or_intror (or_introl eq_refl))).
Defined.

(** C9 (as stated, refuted): a body that parses as JSON but is not an
    object, here the empty array, has no [code] field, and [get] fails on
    it: the call ends with the error of a failed deserialization, with no
    return code, and is not Retryable although an event-id header is
    present and there is no [data] field. *)
Lemma C9_counterexample :
  let response := mkResponse (Some (JArr [])) "[]" [("event-id", "abc")] in
  let w := logged_in "tok" 100000 in
  let run := deserialize (sample_env response 0) (login (sample_env response 0) 1)
                         response identity_class w in
  fst run = Raised (SaicApiException
                      (JStr ("Failed to deserialize response: "
                             ++ "object has no attribute 'get'"
                             ++ ". Original json was " ++ "[]"))
                      None)
  /\ verdict_of (fst run) <> Some Retryable
  /\ (forall msg, fst run <> Raised (SaicApiException msg (Some (JInt (-1))))).
Proof.
  vm_compute. split; [reflexivity|]. split; [discriminate|].
  intros msg. discriminate.
Qed.

(** C9 (amended): for every response whose body is a JSON object without
    a [code] field, the code is taken to be -1: the call is Retryable, with
    the header's value, when an event-id header is present and the body has
    no [data] field, and otherwise Fatal through the branch of the non-zero
    codes, with the server's message and code -1, not the error of a
    failed deserialization. *)
Theorem C9_missing_code_is_minus_one :
  forall (env : Env) (T : Type) (login : M LoginResp) (response : Response)
         (data_class : option (json -> option T)) (fields : dict json)
         (w : World),
    resp_json response = Some (JObj fields) ->
    dict_lookup "code" fields = None ->
    let error_message := dict_get "message" (JStr "Unknown error") fields in
    deserialize env login response data_class w =
      if dict_mem "event-id" (resp_headers response) && negb (dict_mem "data" fields)
      then (Raised (SaicApiRetryException error_message
                      (dict_get "event-id" "" (resp_headers response))
                      (Some (JInt (-1)))), w)
      else (Raised (SaicApiException error_message (Some (JInt (-1)))), w).
Proof.
  intros env T login response data_class fields w Hjson Hcode error_message.
  rewrite (deserialize_object env login response data_class fields w Hjson).
  assert (Hget : dict_get "code" (JInt (-1)) fields = JInt (-1))
    by (unfold dict_get; now rewrite Hcode).
  rewrite Hget. fold error_message. simpl.
  destruct (dict_mem "event-id" (resp_headers response) && negb (dict_mem "data" fields));
    reflexivity.
Qed.

Lemma C9_witness :
  let response := envelope [("message", JStr "no code here")] [] in
  let w := logged_in "tok" 100000 in
  deserialize (sample_env response 0) (login (sample_env response 0) 1)
              response identity_class w
  = (Raised (SaicApiException (JStr "no code here") (Some (JInt (-1)))), w).
Proof.
  intros response w.
  exact (C9_missing_code_is_minus_one
           (sample_env response 0) json (login (sample_env response 0) 1) response
           identity_class [("message", JStr "no code here")] w eq_refl eq_refl).
Defined.

(** ** The session *)

(** C8: [logout] always returns, from any session it leaves the bearer
    token and the expiration unset, a second call changes nothing, and so
    does any number of calls. *)
Theorem C8_logout_idempotent :
  forall (n : nat) (w : World),
    let cleared := snd (logout w) in
    logout w = (Returned tt, cleared)
    /\ user_token cleared = None
    /\ token_expiration cleared = None
    /\ logout cleared = (Returned tt, cleared)
    /\ logout_times (S n) w = (Returned tt, cleared).
Proof.
  intros n w cleared. subst cleared.
  repeat split; try reflexivity.
  revert w. induction n as [|n IH]; intros w.
  - reflexivity.
  - change (logout_times (S (S n)) w) with (logout_times (S n) (snd (logout w))).
    rewrite IH. reflexivity.
Qed.

(** C4 (as stated, refuted): when the login that follows a code 401 gets an
    answer that is itself classified Retryable (here code 4), the original
    call is reported as Retryable, not Fatal. *)
Lemma C4_counterexample :
  let response := envelope [("code", JInt 401); ("message", JStr "token expired")] [] in
  let env := relogin_env (envelope [("code", JInt 4)] []) response in
  let run := deserialize env (login env 1) response identity_class
                         (logged_in "tok" 100000) in
  fst run = Raised (SaicApiRetryException (JStr "Unknown error") "0" (Some (JInt 4)))
  /\ verdict_of (fst run) <> Some Fatal.
Proof. vm_compute. split; [reflexivity | discriminate]. Qed.

(** C4 (amended): for every envelope with code 401, the bearer token and
    the expiration are cleared before the re-login is made -- its request
    leaves with both unset -- whether or not the re-login succeeds; the
    original call never succeeds: when the re-login returns it is reported
    as Fatal with the server's message and code 401, and when the re-login
    raises, its error is what the caller gets. *)
Theorem C4_code_401_clears_session_before_relogin :
  forall (env : Env) (T : Type) (response : Response)
         (data_class : option (json -> option T)) (fields : dict json)
         (fuel : nat) (w : World),
    resp_json response = Some (JObj fields) ->
    dict_lookup "code" fields = Some (JInt 401) ->
    let cleared := before_relogin env w in
    let relogin := login env (S fuel) cleared in
    let run := deserialize env (login env (S fuel)) response data_class w in
    (user_token cleared = None /\ token_expiration cleared = None
     /\ trace cleared = trace w)
    /\ (exists tail,
          trace (snd run)
          = (trace w ++ EvSend LoginClient (login_request env) None None :: tail)%list)
    /\ snd run = snd relogin
    /\ fst run = match fst relogin with
                 | Returned _ =>
                     Raised (SaicApiException
                               (dict_get "message" (JStr "Unknown error") fields)
                               (Some (JInt 401)))
                 | Raised e => Raised (wrap_exception response e)
                 | OutOfFuel => OutOfFuel
                 end
    /\ verdict_of (fst run) <> Some Success
    /\ (forall result, fst relogin = Returned result ->
                       verdict_of (fst run) = Some Fatal).
Proof.
  intros env T response data_class fields fuel w Hjson Hcode cleared relogin run.
  assert (Hget : dict_get "code" (JInt (-1)) fields = JInt 401)
    by (unfold dict_get; now rewrite Hcode).
  assert (Hcleared : user_token cleared = None /\ token_expiration cleared = None
                     /\ trace cleared = trace w).
  { subst cleared. unfold before_relogin.
    destruct (truthy_num (relogin_delay (configuration env))); repeat split. }
  assert (Hrun : run = match relogin with
                       | (Returned _, w') =>
                           (Raised (SaicApiException
                                      (dict_get "message" (JStr "Unknown error") fields)
                                      (Some (JInt 401))), w')
                       | (Raised e, w') => (Raised (wrap_exception response e), w')
                       | (OutOfFuel, w') => (OutOfFuel, w')
                       end).
  { subst run relogin cleared.
    rewrite (deserialize_object env _ response data_class fields w Hjson).
    rewrite Hget. reflexivity. }
  split; [exact Hcleared|].
  assert (Hsnd : snd run = snd relogin).
  { rewrite Hrun. destruct relogin as [[lr|e|] w']; reflexivity. }
  split.
  { rewrite Hsnd. subst relogin.
    destruct (login_sends_first env fuel cleared) as [tail Htail].
    exists tail. rewrite Htail.
    destruct Hcleared as (-> & -> & ->). reflexivity. }
  split; [exact Hsnd|].
  rewrite Hrun. destruct relogin as [[lr|e|] w']; simpl.
  - repeat split; discriminate.
  - repeat split; try discriminate.
    unfold wrap_exception. destruct e; simpl; discriminate.
  - repeat split; discriminate.
Qed.

Lemma C4_witness :
  let response := envelope [("code", JInt 401); ("message", JStr "token expired")] [] in
  let env := sample_env response 0 in
  let w := logged_in "tok" 100000 in
  let run := deserialize env (login env 1) response identity_class w in
  fst run = Raised (SaicApiException (JStr "token expired") (Some (JInt 401)))
  /\ trace (snd run) = [EvSend LoginClient (login_request env) None None]
  /\ user_token (snd run) = Some "fresh".
Proof.
  intros response env w run.
  pose proof (C4_code_401_clears_session_before_relogin
                env json response identity_class
                [("code", JInt 401); ("message", JStr "token expired")] 0 w
                eq_refl eq_refl) as (_ & _ & _ & Hfst & _).
  split; [exact Hfst|]. split; reflexivity.
Defined.

(** C7: [login] sends a form whose [loginType] is 2, whose [countryCode] is
    empty and whose [password] is the SHA-1 hex digest of "pw" when the
    username "a@b.com" is configured as an email with the password "pw";
    for a username that is not an email and the configured country code
    "49" the form has [loginType] 1 and [countryCode] "49". *)
Theorem C7_login_form_body :
  forall (env : Env) (fuel : nat) (w : World),
    let cfg := configuration env in
    (exists tail,
       trace (snd (login env (S fuel) w))
       = (trace w ++ EvSend LoginClient (login_request env)
                            (user_token w) (token_expiration w) :: tail)%list)
    /\ req_method (login_request env) = "POST"
    /\ req_body (login_request env) = FormBody (form_body env)
    /\ (username cfg = "a@b.com" -> username_is_email cfg = true ->
        password cfg = "pw" ->
        dict_lookup "username" (form_body env) = Some "a@b.com"
        /\ dict_lookup "loginType" (form_body env) = Some "2"
        /\ dict_lookup "countryCode" (form_body env) = Some ""
        /\ dict_lookup "password" (form_body env) = Some (sha1_hex_digest "pw")
        /\ sha1_hex_digest "pw" = "1a91d62f7ca67399625a4368a6ab5d4a3baa6073")
    /\ (username_is_email cfg = false -> phone_country_code cfg = "49" ->
        dict_lookup "loginType" (form_body env) = Some "1"
        /\ dict_lookup "countryCode" (form_body env) = Some "49").
Proof.
  intros env fuel w cfg.
  split; [apply login_sends_first|].
  split; [reflexivity|]. split; [reflexivity|].
  subst cfg. unfold form_body. split.
  - intros Hu He Hp. rewrite Hu, He, Hp.
    repeat split; vm_compute; reflexivity.
  - intros He Hc. rewrite He, Hc. split; reflexivity.
Qed.

Lemma C7_witness :
  (dict_lookup "username" (form_body (sample_env login_ok 0)) = Some "a@b.com"
   /\ dict_lookup "loginType" (form_body (sample_env login_ok 0)) = Some "2"
   /\ dict_lookup "countryCode" (form_body (sample_env login_ok 0)) = Some ""
   /\ dict_lookup "password" (form_body (sample_env login_ok 0))
      = Some (sha1_hex_digest "pw")
   /\ sha1_hex_digest "pw" = "1a91d62f7ca67399625a4368a6ab5d4a3baa6073")
  /\ (dict_lookup "loginType" (form_body phone_env) = Some "1"
      /\ dict_lookup "countryCode" (form_body phone_env) = Some "49").
Proof.
  split.
  - exact (proj1 (proj2 (proj2 (proj2
             (C7_login_form_body (sample_env login_ok 0) 0 initial_world))))
             eq_refl eq_refl eq_refl).
  - exact (proj2 (proj2 (proj2 (proj2
             (C7_login_form_body phone_env 0 initial_world))))
             eq_refl eq_refl).
Defined.

(** ** The retry loop *)

Lemma waits_left_done (d c : Z) : 0 < d -> 30000 <= c -> waits_left d c = 0.
Proof.
  intros Hd Hc. unfold waits_left.
  assert ((30000 - c + d - 1) / d < 1) by (apply Z.div_lt_upper_bound; lia).
  lia.
Qed.

Lemma waits_left_step (d c c' : Z) :
  0 < d -> c < 30000 -> c + d <= c' ->
  waits_left d c' + 1 <= waits_left d c
  /\ (c' = c + d -> waits_left d c' + 1 = waits_left d c).
Proof.
  intros Hd Hc Hc'. unfold waits_left.
  assert (Hq : (30000 - c + d - 1 + (-1) * d) / d = (30000 - c + d - 1) / d + (-1))
    by (apply Z.div_add; lia).
  assert (H1 : 1 <= (30000 - c + d - 1) / d)
    by (apply Z.div_le_lower_bound; lia).
  assert (H2 : (30000 - c' + d - 1) / d <= (30000 - c + d - 1 + (-1) * d) / d)
    by (apply Z.div_le_mono; lia).
  split.
  - lia.
  - intros ->.
    replace (30000 - (c + d) + d - 1) with (30000 - c + d - 1 + (-1) * d) by lia.
    lia.
Qed.

Section Retrying.

Context {A : Type}.
Variable stop : RetryCallState A -> bool.
Variable wait : RetryCallState A -> Z.
Variable fn : dict string -> M A.
Variable started : Z.

Let loop (rounds : nat) : dict string -> M A :=
  retrying rounds stop wait saic_api_retry_policy saic_api_after_retry fn started.

(** An attempt that the policy does not retry ends the loop with its
    result. *)
Lemma retrying_done (rounds : nat) (kw : dict string) (w w' : World)
    (fut : Outcome A) :
  attempt (fn kw) w = (Returned fut, w') ->
  saic_api_retry_policy (mkRetryCallState kw fut started (clock w')) = false ->
  loop (S rounds) kw w = future_result fut w'.
Proof.
  intros Hfn Hpol. unfold loop. simpl. unfold bind at 1. rewrite Hfn.
  unfold bind, now. now rewrite Hpol.
Qed.

(** An attempt that the policy retries is the last one when [stop] says
    so, and is followed by the wait and the next attempt otherwise. *)
Lemma retrying_again (rounds : nat) (kw : dict string) (w w' : World)
    (e : Exn) :
  fn kw w = (Raised e, w') ->
  let retry_state := mkRetryCallState kw (Failed e) started (clock w') in
  saic_api_retry_policy retry_state = true ->
  loop (S rounds) kw w =
    if stop retry_state then (Raised e, w')
    else loop rounds (saic_api_after_retry retry_state)
              (advance (Z.max 0 (wait retry_state)) w').
Proof.
  intros Hfn retry_state Hpol. unfold loop. simpl.
  unfold bind at 1. unfold attempt. rewrite Hfn.
  unfold bind at 1. unfold now. fold retry_state. rewrite Hpol. simpl.
  destruct (stop retry_state); reflexivity.
Qed.

End Retrying.

Section AlwaysRetried.

Context {A : Type}.
Variable d : Z.
Variable fn : dict string -> M A.
Variable started : Z.
Variable Inv : dict string -> World -> Prop.
Variable Post : Exn -> World -> Prop.
Variable instant : Prop.

Hypothesis d_pos : 0 < d.

Hypothesis step : forall kw w,
  Inv kw w ->
  exists e w',
    fn kw w = (Raised e, w')
    /\ saic_api_retry_policy (mkRetryCallState kw (@Failed A e) started (clock w')) = true
    /\ clock w <= clock w'
    /\ (instant -> clock w' = clock w)
    /\ attempts (trace w') = S (attempts (trace w))
    /\ Post e w'
    /\ Inv (saic_api_after_retry (mkRetryCallState kw (@Failed A e) started (clock w')))
           (advance (Z.max 0 d) w').

(** When every attempt raises an exception that the policy retries, the
    loop ends by raising the exception of the first attempt that finishes
    30 seconds or more after the start. *)
Lemma retrying_until_deadline :
  forall (rounds : nat) (kw : dict string) (w : World),
    Inv kw w ->
    waits_left d (clock w - started) < Z.of_nat rounds ->
    exists e w' n,
      retrying rounds (stop_after_delay 30) (wait_fixed d)
               saic_api_retry_policy saic_api_after_retry fn started kw w
      = (Raised e, w')
      /\ Post e w'
      /\ 30000 <= clock w' - started
      /\ attempts (trace w') = (attempts (trace w) + n)%nat
      /\ 1 <= Z.of_nat n <= waits_left d (clock w - started) + 1
      /\ (instant -> Z.of_nat n = waits_left d (clock w - started) + 1).
Proof.
  induction rounds as [|rounds IH]; intros kw w HInv Hrounds.
  - unfold waits_left in Hrounds. lia.
  - destruct (step kw w HInv) as (e & w1 & Hfn & Hpol & Hmono & Hinst & Hatt & HPost & HInv').
    rewrite (retrying_again _ _ fn started rounds kw w w1 e Hfn Hpol).
    unfold stop_after_delay, since_start, wait_fixed. simpl.
    destruct (30000 <=? clock w1 - started) eqn:Hstop.
    + apply Z.leb_le in Hstop.
      exists e, w1, 1%nat. split; [reflexivity|]. split; [exact HPost|].
      split; [exact Hstop|]. split; [rewrite Hatt; lia|].
      assert (0 <= waits_left d (clock w - started)) by (unfold waits_left; lia).
      split; [lia|].
      intros Hi. rewrite (Hinst Hi) in Hstop.
      rewrite waits_left_done; lia.
    + apply Z.leb_gt in Hstop.
      set (w2 := advance (Z.max 0 d) w1) in *.
      assert (Hclock : clock w2 = clock w1 + d)
        by (subst w2; unfold advance; simpl; lia).
      destruct (waits_left_step d (clock w - started) (clock w2 - started))
        as [Hle Heq]; [lia | lia | lia |].
      destruct (IH _ w2 HInv') as (e' & w' & n & Hrun & HP & Hend & Hn & Hbound & Hexact);
        [lia|].
      exists e', w', (S n). split; [exact Hrun|]. split; [exact HP|].
      split; [exact Hend|].
      split; [rewrite Hn; subst w2; unfold advance; simpl; rewrite Hatt; lia|].
      split; [lia|].
      intros Hi. specialize (Hexact Hi). specialize (Hinst Hi).
      rewrite <- Heq; lia.
Qed.

End AlwaysRetried.

(** ** One attempt of a polling call *)

Ltac count_events :=
  simpl trace; unfold attempts, sends;
  rewrite ?filter_app, ?length_app; simpl; rewrite ?app_nil_r.

Section Attempt.

Variable env : Env.
Context {T : Type}.
Variables (fuel : nat) (method path : string) (body : option json).
Variables (out_type : option (json -> option T)).
Variables (params : dict string) (headers : option (dict string)).

Let inner : dict string -> M (option T) :=
  execute_api_call_with_event_id_inner env fuel method path body out_type params headers.

(** Without a token the attempt raises before anything is sent. *)
Lemma inner_unauthenticated (kw : dict string) (event_id : string) (w : World) :
  truthy_str (user_token w) = false ->
  dict_lookup "event_id" kw = Some event_id ->
  inner kw w = (Raised not_authenticated, log (EvAttempt (clock w) event_id) w).
Proof.
  intros Hauth Hkw. unfold inner, execute_api_call_with_event_id_inner.
  rewrite Hkw. unfold bind at 1. unfold execute_api_call, api_client_send.
  unfold bind at 1. unfold bind at 1. unfold encrypt_request.
  simpl user_token. rewrite Hauth. reflexivity.
Qed.

(** With a token the request goes out, and the answer is classified. *)
Lemma inner_authenticated (kw : dict string) (event_id : string) (w : World) :
  truthy_str (user_token w) = true ->
  dict_lookup "event_id" kw = Some event_id ->
  let req := polling_request env method path body params headers event_id in
  let sent := attempt_sent env w event_id req in
  inner kw w =
    match reply (api_server env (api_sent w)) with
    | inl response => deserialize env (login env fuel) response out_type sent
    | inr err => (Raised (OtherException err), sent)
    end.
Proof.
  intros Hauth Hkw req sent. unfold inner, execute_api_call_with_event_id_inner.
  rewrite Hkw. unfold bind at 1. unfold execute_api_call, api_client_send.
  unfold bind at 1. unfold bind at 1. unfold encrypt_request.
  simpl user_token. rewrite Hauth. simpl negb. cbv iota beta zeta.
  simpl api_sent.
  destruct (reply (api_server env (api_sent w))) as [response|err]; reflexivity.
Qed.

End Attempt.

(** ** Runs of the retry loop *)

Lemma waits_left_at_least_one (d : Z) : 0 < d -> 1 <= waits_left d 0.
Proof.
  intros Hd. unfold waits_left.
  assert (1 <= (30000 - 0 + d - 1) / d) by (apply Z.div_le_lower_bound; lia).
  lia.
Qed.

(** C10: a polling call started without a token fails each of its attempts
    with the not-authenticated error and sends nothing; the policy of the
    loop retries that error, so the call is attempted again after every
    wait, and ends with that error only once the 30 seconds are used up. *)
Theorem C10_unauthenticated_polling_is_retried :
  forall (env : Env) (T : Type) (rounds fuel : nat) (method path : string)
         (body : option json) (out_type : option (json -> option T))
         (params : dict string) (headers : option (dict string)) (w : World),
    truthy_str (user_token w) = false ->
    let d := sms_delivery_delay (configuration env) in
    0 < d ->
    waits_left d 0 < Z.of_nat rounds ->
    let run := execute_api_call_with_event_id
                 env rounds fuel method path body out_type params headers w in
    fst run = Raised not_authenticated
    /\ (forall kw started finished,
          saic_api_retry_policy
            (mkRetryCallState kw (@Failed (option T) not_authenticated) started finished)
          = true)
    /\ sends (trace (snd run)) = sends (trace w)
    /\ api_sent (snd run) = api_sent w
    /\ Z.of_nat (attempts (trace (snd run)))
       = Z.of_nat (attempts (trace w)) + waits_left d 0 + 1
    /\ 1 <= waits_left d 0
    /\ 30000 <= clock (snd run) - clock w.
Proof.
  intros env T rounds fuel method path body out_type params headers w Hauth d Hd Hrounds run.
  pose (Inv := fun (kw : dict string) (w' : World) =>
                 truthy_str (user_token w') = false
                 /\ dict_lookup "event_id" kw = Some "0"
                 /\ sends (trace w') = sends (trace w)
                 /\ api_sent w' = api_sent w).
  pose (Post := fun (e : Exn) (w' : World) =>
                  e = not_authenticated
                  /\ sends (trace w') = sends (trace w)
                  /\ api_sent w' = api_sent w).
  destruct (retrying_until_deadline
              d (execute_api_call_with_event_id_inner
                   env fuel method path body out_type params headers)
              (clock w) Inv Post True Hd) with (rounds := rounds)
              (kw := [("event_id", "0")]) (w := w)
    as (e & w' & n & Hrun & (He & Hsends & Hsent) & Hend & Hn & Hbound & Hexact).
  - intros kw w0 (Ha & Hkw & Hs & Hc).
    exists not_authenticated, (log (EvAttempt (clock w0) "0") w0).
    split; [now apply inner_unauthenticated|].
    split; [reflexivity|]. simpl clock. split; [lia|]. split; [reflexivity|].
    split; [count_events; lia|].
    split.
    + split; [reflexivity|]. split; [|exact Hc].
      count_events. exact Hs.
    + unfold Inv. simpl. repeat split; auto.
      count_events. exact Hs.
  - unfold Inv. repeat split; auto.
  - replace (clock w - clock w) with 0 by lia. exact Hrounds.
  - assert (Hrun' : run = (Raised e, w')) by exact Hrun.
    rewrite Hrun'. simpl fst. simpl snd. subst e.
    replace (clock w - clock w) with 0 in * by lia.
    split; [reflexivity|]. split; [reflexivity|].
    split; [exact Hsends|]. split; [exact Hsent|].
    split; [rewrite Hn; specialize (Hexact I); lia|].
    split; [now apply waits_left_at_least_one | exact Hend].
Qed.

Lemma C10_witness :
  let env := sample_env login_ok 0 in
  let run := execute_api_call_with_event_id
               env 7 1 "GET" "/vehicle/status" None identity_class [] None
               initial_world in
  fst run = Raised not_authenticated
  /\ sends (trace (snd run)) = []
  /\ attempts (trace (snd run)) = 7%nat
  /\ clock (snd run) = 30000.
Proof.
  intros env run.
  pose proof (C10_unauthenticated_polling_is_retried
                env json 7 1 "GET" "/vehicle/status" None identity_class [] None
                initial_world eq_refl eq_refl eq_refl) as (Hfst & _ & Hsends & _).
  split; [exact Hfst|]. split; [exact Hsends|]. split; reflexivity.
Defined.









(** The events of the first attempt stay in the run of the loop. *)
Lemma retrying_extends_first_attempt {A : Type}
    (stop : RetryCallState A -> bool) (wait : RetryCallState A -> Z)
    (retry : RetryCallState A -> bool) (after : RetryCallState A -> dict string)
    (fn : dict string -> M A) (started : Z) :
  (forall kw, appending (fn kw)) ->
  forall (rounds : nat) (kw : dict string) (w : World),
    extends (snd (fn kw w))
            (snd (retrying (S rounds) stop wait retry after fn started kw w)).
Proof.
  intros Hfn rounds kw w. simpl. unfold bind at 1. unfold attempt.
  assert (HK : forall fut : Outcome A,
             appending
               (finished <- now ;;
                if negb (retry (mkRetryCallState kw fut started finished))
                then future_result fut
                else if stop (mkRetryCallState kw fut started finished)
                     then reraise fut
                     else asyncio_sleep (wait (mkRetryCallState kw fut started finished)) ;;
                          retrying rounds stop wait retry after fn started
                                   (after (mkRetryCallState kw fut started finished)))).
  { intros fut. apply appending_bind; [apply appending_now|].
    intros finished.
    destruct (negb (retry _)).
    - destruct fut; [apply appending_ret | apply appending_raise].
    - destruct (stop _).
      + destruct fut; apply appending_raise.
      + apply appending_bind; [apply appending_sleep|].
        intros _. now apply appending_retrying. }
  destruct (fn kw w) as [[a|e|] w1]; simpl snd at 1.
  - apply HK.
  - apply HK.
  - apply extends_refl.
Qed.

(** C5 (as stated, refuted): an envelope with code 2 that carries an
    event-id header and no [data] field is classified Fatal, not
    Retryable. *)
Lemma C5_counterexample :
  let response := envelope [("code", JInt 2); ("message", JStr "refused")]
                           [("event-id", "abc")] in
  let env := sample_env response 0 in
  let w := logged_in "tok" 100000 in
  deserialize env (login env 1) response identity_class w
  = (Raised (SaicApiException (JStr "refused") (Some (JInt 2))), w)
  /\ verdict_of (fst (deserialize env (login env 1) response identity_class w))
     <> Some Retryable
  /\ attempts (trace (snd (execute_api_call_with_event_id
                             env 20 1 "GET" "/vehicle/status" None identity_class
                             [] None w))) = 1%nat.
Proof. vm_compute. split; [reflexivity|]. split; [discriminate | reflexivity]. Qed.

(** C5 (amended): for every envelope whose code is none of 401, 2, 3 and 7,
    that carries an event-id header and has no [data] field, classification
    yields Retryable with the header's value; and when such an envelope
    answers an attempt of the retry loop before the 30 seconds are used up,
    the next attempt sends that value as its event-id header. The loop of a
    polling call is [retrying] started with the keyword argument "0". *)
Theorem C5_event_id_header_drives_next_attempt :
  forall (env : Env) (T : Type) (rounds fuel : nat) (method path : string)
         (body : option json) (out_type : option (json -> option T))
         (params : dict string) (headers : option (dict string))
         (response : Response) (fields : dict json) (ev : string),
    resp_json response = Some (JObj fields) ->
    let return_code := dict_get "code" (JInt (-1)) fields in
    py_eq_int return_code 401 = false ->
    py_in_ints return_code [2; 3; 7] = false ->
    dict_lookup "event-id" (resp_headers response) = Some ev ->
    dict_mem "data" fields = false ->
    let inner := execute_api_call_with_event_id_inner
                   env fuel method path body out_type params headers in
    let loop := fun n => retrying n (stop_after_delay 30)
                           (wait_fixed (sms_delivery_delay (configuration env)))
                           saic_api_retry_policy saic_api_after_retry inner in
    let request := polling_request env method path body params headers in
    (forall (login : M LoginResp) (w : World),
        deserialize env login response out_type w
        = (Raised (SaicApiRetryException
                     (dict_get "message" (JStr "Unknown error") fields)
                     ev (Some return_code)), w))
    /\ (forall (n : nat) (w : World),
          execute_api_call_with_event_id
            env n fuel method path body out_type params headers w
          = loop n (clock w) [("event_id", "0")] w)
    /\ dict_lookup "event-id" (req_headers (request ev)) = Some ev
    /\ (forall (started : Z) (kw : dict string) (previous : string) (w : World),
          dict_lookup "event_id" kw = Some previous ->
          truthy_str (user_token w) = true ->
          reply (api_server env (api_sent w)) = inl response ->
          clock w + Z.of_N (latency (api_server env (api_sent w))) - started < 30000 ->
          exists t tail,
            trace (snd (loop (S (S rounds)) started kw w))
            = (trace w
                 ++ [EvAttempt (clock w) previous;
                     EvSend ApiClient (request previous)
                            (user_token w) (token_expiration w);
                     EvAttempt t ev;
                     EvSend ApiClient (request ev)
                            (user_token w) (token_expiration w)]
                 ++ tail)%list).
Proof.
  intros env T rounds fuel method path body out_type params headers response
         fields ev Hjson return_code H401 H237 Hhdr Hdata inner loop request.
  assert (Hclass : forall (login : M LoginResp) (w0 : World),
             deserialize env login response out_type w0
             = (Raised (SaicApiRetryException
                          (dict_get "message" (JStr "Unknown error") fields)
                          ev (Some return_code)), w0)).
  { intros login w0.
    rewrite (deserialize_object env login response out_type fields w0 Hjson).
    fold return_code. rewrite H401, H237.
    unfold dict_mem at 1. unfold dict_get at 2. rewrite Hhdr, Hdata. reflexivity. }
  split; [exact Hclass|].
  split; [reflexivity|].
  split; [apply dict_lookup_update_same|].
  intros started kw previous w Hkw Hauth Hreply Hlat.
  set (sent := attempt_sent env w previous (request previous)).
  set (raised := SaicApiRetryException
                   (dict_get "message" (JStr "Unknown error") fields)
                   ev (Some return_code)).
  assert (Hfirst : inner kw w = (Raised raised, sent)).
  { subst inner.
    rewrite (inner_authenticated env fuel method path body out_type params headers
               kw previous w Hauth Hkw).
    rewrite Hreply. apply Hclass. }
  set (w2 := advance (Z.max 0 (sms_delivery_delay (configuration env))) sent).
  set (kw2 := dict_update "event_id" ev kw).
  assert (Hloop : loop (S (S rounds)) started kw w = loop (S rounds) started kw2 w2).
  { subst loop. cbv beta.
    rewrite (retrying_again _ _ inner started (S rounds) kw w sent _ Hfirst eq_refl).
    assert (Hstop : @stop_after_delay (option T) 30
                      (mkRetryCallState kw (Failed raised) started (clock sent))
                    = false).
    { unfold stop_after_delay, since_start. simpl. apply Z.leb_gt. lia. }
    rewrite Hstop.
    unfold saic_api_after_retry. simpl. unfold dict_mem. rewrite Hkw.
    reflexivity. }
  rewrite Hloop.
  assert (Hauth2 : truthy_str (user_token w2) = true) by exact Hauth.
  assert (Hkw2 : dict_lookup "event_id" kw2 = Some ev)
    by apply dict_lookup_update_same.
  pose proof (retrying_extends_first_attempt
                (stop_after_delay 30)
                (wait_fixed (sms_delivery_delay (configuration env)))
                saic_api_retry_policy saic_api_after_retry inner started
                (appending_inner env fuel method path body out_type params headers)
                rounds kw2 w2) as Hext.
  assert (Hsent2 : extends (attempt_sent env w2 ev (request ev)) (snd (inner kw2 w2))).
  { subst inner.
    rewrite (inner_authenticated env fuel method path body out_type params headers
               kw2 ev w2 Hauth2 Hkw2).
    destruct (reply (api_server env (api_sent w2))) as [response2|err].
    - apply appending_deserialize, appending_login.
    - apply extends_refl. }
  destruct (extends_trans _ _ _ Hsent2 Hext) as [tail Htail].
  exists (clock w2), tail. subst loop. cbv beta. rewrite Htail.
  subst w2 sent. simpl. rewrite <- !app_assoc. reflexivity.
Qed.

Lemma C5_witness :
  let response := envelope [("code", JInt 0)] [("event-id", "abc")] in
  let env := sample_env response 0 in
  let w := logged_in "tok" 100000 in
  let request := polling_request env "GET" "/vehicle/status" None [] None in
  exists t tail,
    trace (snd (execute_api_call_with_event_id
                  env 2 1 "GET" "/vehicle/status" None identity_class [] None w))
    = ([] ++ [EvAttempt 0 "0";
              EvSend ApiClient (request "0") (Some "tok") (Some 100000);
              EvAttempt t "abc";
              EvSend ApiClient (request "abc") (Some "tok") (Some 100000)]
          ++ tail)%list.
Proof.
  intros response env w request.
  apply (proj2 (proj2 (proj2
           (C5_event_id_header_drives_next_attempt
              env json 0 1 "GET" "/vehicle/status" None identity_class [] None
              response [("code", JInt 0)] "abc"
              eq_refl eq_refl eq_refl eq_refl eq_refl)))
           0 [("event_id", "0")] "0" w).
  - reflexivity.
  - reflexivity.
  - reflexivity.
  - reflexivity.
Defined.

(** ** Sample runs of the loop *)

(** The first attempt is answered with an event-id header "abc" and no
    data, the second, sent with that header, with data: the loop returns
    the data after two attempts. *)
Example success_after_retry :
  let pending := envelope [("code", JInt 0)] [("event-id", "abc")] in
  let ready := envelope [("code", JInt 0); ("data", JObj [("x", JInt 1)])] [] in
  let env := mkEnv sample_configuration sample_LoginResp_from_dict
                   (always login_ok 0) (first_then pending ready 100) in
  let request := polling_request env "GET" "/vehicle/status" None [] None in
  let run := execute_api_call_with_event_id
               env 20 1 "GET" "/vehicle/status" None identity_class [] None
               (logged_in "tok" 100000) in
  fst run = Returned (Some (JObj [("x", JInt 1)]))
  /\ trace (snd run)
     = [EvAttempt 0 "0";
        EvSend ApiClient (request "0") (Some "tok") (Some 100000);
        EvAttempt 5100 "abc";
        EvSend ApiClient (request "abc") (Some "tok") (Some 100000)].
Proof. vm_compute. split; reflexivity. Qed.

(** When every request takes a second, the sixth attempt is the first to
    finish after the 30 seconds and is the last. *)
Example six_attempts_when_requests_take_a_second :
  let env := sample_env (envelope [("code", JInt 4)] []) 1000 in
  let run := execute_api_call_with_event_id
               env 20 1 "GET" "/vehicle/status" None identity_class [] None
               (logged_in "tok" 100000) in
  attempts (trace (snd run)) = 6%nat
  /\ clock (snd run) = 31000
  /\ is_retry_signal (fst run) = true.
Proof. vm_compute. repeat split. Qed.

(** A call that is answered with code 401 logs in again and is reported as
    failed; the session holds the new token afterwards. *)
Example relogin_after_401 :
  let response := envelope [("code", JInt 401); ("message", JStr "token expired")] [] in
  let env := sample_env response 250 in
  let run := execute_api_call env 1 "GET" "/vehicle/status" None identity_class [] []
                              (logged_in "tok" 100000) in
  fst run = Raised (SaicApiException (JStr "token expired") (Some (JInt 401)))
  /\ user_token (snd run) = Some "fresh"
  /\ token_expiration (snd run) = Some (250 + 3600000)
  /\ List.length (sends (trace (snd run))) = 2%nat.
Proof. vm_compute. repeat split. Qed.

(** * More properties of the code *)

(** ** [deserialize] *)

Lemma dict_lookup_update_other {V : Type} (k k' : string) (v : V) (d : dict V) :
  k' <> k -> dict_lookup k' (dict_update k v d) = dict_lookup k' d.
Proof.
  intros Hne. induction d as [|[k0 v0] rest IH]; simpl.
  - destruct (String.eqb k' k) eqn:E; [apply String.eqb_eq in E; contradiction | reflexivity].
  - destruct (String.eqb k k0) eqn:E; simpl.
    + apply String.eqb_eq in E. subst k0.
      destruct (String.eqb k' k) eqn:E'; [apply String.eqb_eq in E'; contradiction | reflexivity].
    + destruct (String.eqb k' k0); [reflexivity | exact IH].
Qed.

Lemma wrap_exception_is_api (response : Response) (e : Exn) :
  is_SaicApiException (wrap_exception response e) = true.
Proof. unfold wrap_exception. destruct e; reflexivity. Qed.

(** Code 0 with a [data] field that the data class decodes. *)
Lemma deserialize_success (env : Env) {T : Type} (login : M LoginResp)
    (response : Response) (dc : json -> option T) (fields : dict json)
    (data : json) (v : T) (w : World) :
  resp_json response = Some (JObj fields) ->
  dict_lookup "code" fields = Some (JInt 0) ->
  dict_lookup "data" fields = Some data ->
  dc data = Some v ->
  deserialize env login response (Some dc) w = (Returned (Some v), w).
Proof.
  intros Hjson Hcode Hdata Hdc.
  rewrite (deserialize_object env login response (Some dc) fields w Hjson).
  assert (Hget : dict_get "code" (JInt (-1)) fields = JInt 0)
    by (unfold dict_get; now rewrite Hcode).
  rewrite Hget. unfold dict_mem at 2. rewrite Hdata, Hdc. simpl.
  now rewrite andb_false_r.
Qed.

(** X1: an envelope with code 0 and a [data] field that the data class
    decodes is a success: the decoded payload is returned and nothing
    changes, whatever the headers. *)
Theorem X1_code_0_with_data_succeeds :
  forall (env : Env) (T : Type) (login : M LoginResp) (response : Response)
         (dc : json -> option T) (fields : dict json) (data : json) (v : T)
         (w : World),
    resp_json response = Some (JObj fields) ->
    dict_lookup "code" fields = Some (JInt 0) ->
    dict_lookup "data" fields = Some data ->
    dc data = Some v ->
    deserialize env login response (Some dc) w = (Returned (Some v), w).
Proof.
  intros env T login response dc fields data v w.
  apply deserialize_success.
Qed.

Lemma X1_witness :
  let response := envelope [("code", JInt 0); ("data", JObj [("x", JInt 1)])]
                           [("event-id", "abc")] in
  let w := logged_in "tok" 100000 in
  deserialize (sample_env response 0) (login (sample_env response 0) 1)
              response identity_class w
  = (Returned (Some (JObj [("x", JInt 1)])), w).
Proof.
  intros response w.
  exact (X1_code_0_with_data_succeeds
           (sample_env response 0) json (login (sample_env response 0) 1) response
           (fun j => Some j) _ (JObj [("x", JInt 1)]) _ w
           eq_refl eq_refl eq_refl eq_refl).
Defined.

(** X2: with no data class, an envelope with code 0 that is not pending
    (no event-id header, or a [data] field) gives [None], and a [data]
    field that is there is not looked at. *)
Theorem X2_code_0_without_data_class_returns_none :
  forall (env : Env) (T : Type) (login : M LoginResp) (response : Response)
         (fields : dict json) (w : World),
    resp_json response = Some (JObj fields) ->
    dict_lookup "code" fields = Some (JInt 0) ->
    pending response fields = false ->
    deserialize env login response (@None (json -> option T)) w = (Returned None, w).
Proof.
  intros env T login response fields w Hjson Hcode Hpending.
  rewrite (deserialize_object env login response None fields w Hjson).
  assert (Hget : dict_get "code" (JInt (-1)) fields = JInt 0)
    by (unfold dict_get; now rewrite Hcode).
  rewrite Hget. unfold pending in Hpending. rewrite Hpending. reflexivity.
Qed.

Lemma X2_witness :
  let response := envelope [("code", JInt 0); ("data", JStr "ignored")] [] in
  let w := logged_in "tok" 100000 in
  deserialize (sample_env response 0) (login (sample_env response 0) 1)
              response (@None (json -> option json)) w
  = (Returned None, w).
Proof.
  intros response w.
  exact (X2_code_0_without_data_class_returns_none
           (sample_env response 0) json (login (sample_env response 0) 1) response
           _ w eq_refl eq_refl eq_refl).
Defined.

(** X4: an envelope whose code is none of 0, 401, 2, 3, 7 and 4, and that
    is not pending, is Fatal with the server's message and that code, and
    nothing changes. *)
Theorem X4_other_codes_are_fatal :
  forall (env : Env) (T : Type) (login : M LoginResp) (response : Response)
         (data_class : option (json -> option T)) (fields : dict json)
         (c : Z) (w : World),
    resp_json response = Some (JObj fields) ->
    dict_lookup "code" fields = Some (JInt c) ->
    c <> 0 -> c <> 401 -> c <> 2 -> c <> 3 -> c <> 7 -> c <> 4 ->
    pending response fields = false ->
    deserialize env login response data_class w
    = (Raised (SaicApiException (dict_get "message" (JStr "Unknown error") fields)
                                (Some (JInt c))), w).
Proof.
  intros env T login response data_class fields c w Hjson Hcode
         H0 H401 H2 H3 H7 H4 Hpending.
  rewrite (deserialize_object env login response data_class fields w Hjson).
  assert (Hget : dict_get "code" (JInt (-1)) fields = JInt c)
    by (unfold dict_get; now rewrite Hcode).
  rewrite Hget. unfold pending in Hpending. rewrite Hpending.
  unfold py_in_ints, py_eq_int. simpl.
  repeat match goal with
         | |- context [c =? ?k] =>
             let E := fresh in destruct (Z.eqb_spec c k) as [E|E]; [contradiction|]
         end.
  reflexivity.
Qed.

Lemma X4_witness :
  let response := envelope [("code", JInt 500); ("message", JStr "server error")] [] in
  let w := logged_in "tok" 100000 in
  deserialize (sample_env response 0) (login (sample_env response 0) 1)
              response identity_class w
  = (Raised (SaicApiException (JStr "server error") (Some (JInt 500))), w).
Proof.
  intros response w.
  apply (X4_other_codes_are_fatal
           (sample_env response 0) json (login (sample_env response 0) 1) response
           identity_class _ 500 w eq_refl eq_refl); try discriminate.
  reflexivity.
Defined.

(** X5: a body that is not JSON, or that is JSON but not an object, is
    Fatal: the error is a plain [SaicApiException] with no return code whose
    message ends with the raw text of the response; nothing changes and no
    login is made. *)
Theorem X5_unreadable_body_is_fatal :
  forall (env : Env) (T : Type) (login : M LoginResp) (response : Response)
         (data_class : option (json -> option T)) (w : World),
    (forall fields, resp_json response <> Some (JObj fields)) ->
    exists reason,
      deserialize env login response data_class w
      = (Raised (SaicApiException
                   (JStr ("Failed to deserialize response: " ++ reason
                          ++ ". Original json was " ++ resp_text response))
                   None), w).
Proof.
  intros env T login response data_class w Hno.
  apply deserialize_not_object.
  destruct (resp_json response) as [[ | | | | | fields]|]; try exact I.
  now apply (Hno fields).
Qed.

Lemma X5_witness :
  let response := mkResponse (Some (JArr [])) "[]" [("event-id", "abc")] in
  let w := logged_in "tok" 100000 in
  exists reason,
    deserialize (sample_env response 0) (login (sample_env response 0) 1)
                response identity_class w
    = (Raised (SaicApiException
                 (JStr ("Failed to deserialize response: " ++ reason
                        ++ ". Original json was " ++ "[]"))
                 None), w).
Proof.
  intros response w.
  apply (X5_unreadable_body_is_fatal
           (sample_env response 0) json (login (sample_env response 0) 1) response
           identity_class w).
  intros fields. discriminate.
Defined.

(** X6: an envelope with code 0 whose [data] field the data class cannot
    decode is Fatal with the wrapped decoding error and the raw text, not a
    success with a partial payload. *)
Theorem X6_undecodable_data_is_fatal :
  forall (env : Env) (T : Type) (login : M LoginResp) (response : Response)
         (dc : json -> option T) (fields : dict json) (data : json) (w : World),
    resp_json response = Some (JObj fields) ->
    dict_lookup "code" fields = Some (JInt 0) ->
    dict_lookup "data" fields = Some data ->
    dc data = None ->
    exists reason,
      deserialize env login response (Some dc) w
      = (Raised (SaicApiException
                   (JStr ("Failed to deserialize response: " ++ reason
                          ++ ". Original json was " ++ resp_text response))
                   None), w).
Proof.
  intros env T login response dc fields data w Hjson Hcode Hdata Hdc.
  exists "wrong value type for field".
  rewrite (deserialize_object env login response (Some dc) fields w Hjson).
  assert (Hget : dict_get "code" (JInt (-1)) fields = JInt 0)
    by (unfold dict_get; now rewrite Hcode).
  rewrite Hget. unfold dict_mem at 2. rewrite Hdata, Hdc. simpl.
  now rewrite andb_false_r.
Qed.

Lemma X6_witness :
  let response := mkResponse (Some (JObj [("code", JInt 0); ("data", JInt 5)]))
                             "{code: 0, data: 5}" [] in
  let env := sample_env response 0 in
  let w := logged_in "tok" 100000 in
  exists reason,
    deserialize env (login env 1) response (Some sample_LoginResp_from_dict) w
    = (Raised (SaicApiException
                 (JStr ("Failed to deserialize response: " ++ reason
                        ++ ". Original json was " ++ "{code: 0, data: 5}"))
                 None), w).
Proof.
  intros response env w.
  exact (X6_undecodable_data_is_fatal
           env LoginResp (login env 1) response sample_LoginResp_from_dict
           _ (JInt 5) w eq_refl eq_refl eq_refl eq_refl).
Defined.

(** X7: unless the envelope has code 401, [deserialize] changes nothing:
    the session, the clock and the traffic are as before, whatever the body
    and the headers are, and no login is made. *)
Theorem X7_only_code_401_touches_the_world :
  forall (env : Env) (T : Type) (login : M LoginResp) (response : Response)
         (data_class : option (json -> option T)) (w : World),
    (forall fields, resp_json response = Some (JObj fields) ->
                    has_code fields 401 = false) ->
    snd (deserialize env login response data_class w) = w.
Proof.
  intros env T login response data_class w Hcode.
  destruct (resp_json response) as [j|] eqn:Hjson.
  - destruct j as [ | | | | | fields].
    6:{ rewrite (deserialize_object env login response data_class fields w Hjson).
        specialize (Hcode fields eq_refl). unfold has_code in Hcode.
        cbv zeta. rewrite Hcode.
        repeat match goal with
               | |- context [if ?b then _ else _] => destruct b
               | |- context [match ?o with Some _ => _ | None => _ end] => destruct o
               end; reflexivity. }
    all: destruct (deserialize_not_object env login response data_class w) as [t Ht];
      [rewrite Hjson; exact I | rewrite Ht; reflexivity].
  - destruct (deserialize_not_object env login response data_class w) as [t Ht];
      [rewrite Hjson; exact I | rewrite Ht; reflexivity].
Qed.

Lemma X7_witness :
  let response := envelope [("code", JInt 4)] [("event-id", "abc")] in
  let w := logged_in "tok" 100000 in
  snd (deserialize (sample_env response 0) (login (sample_env response 0) 1)
                   response identity_class w) = w.
Proof.
  intros response w.
  apply (X7_only_code_401_touches_the_world
           (sample_env response 0) json (login (sample_env response 0) 1) response
           identity_class w).
  intros fields H. injection H as <-. reflexivity.
Defined.

(** X8: whatever the response and whatever the login does, an exception
    of class [Exception] that leaves [deserialize] is a [SaicApiException]
    (possibly the retry or the logout one): decoding errors and the errors
    of a failed re-login are wrapped. (An exception outside [Exception],
    such as the cancellation of the task, is not caught by the handlers and
    is outside the exceptions modelled here.) *)
Theorem X8_deserialize_raises_only_api_exceptions :
  forall (env : Env) (T : Type) (login : M LoginResp) (response : Response)
         (data_class : option (json -> option T)) (w : World),
    match fst (deserialize env login response data_class w) with
    | Raised e => is_SaicApiException e = true
    | _ => True
    end.
Proof.
  intros env T login response data_class w.
  destruct (resp_json response) as [j|] eqn:Hjson.
  - destruct j as [ | | | | | fields].
    6:{ rewrite (deserialize_object env login response data_class fields w Hjson).
        cbv zeta.
        destruct (py_eq_int _ 401).
        - destruct (login (before_relogin env w)) as [[lr|e|] w']; simpl; auto.
          apply wrap_exception_is_api.
        - repeat match goal with
                 | |- context [if ?b then _ else _] => destruct b
                 | |- context [match ?o with Some _ => _ | None => _ end] => destruct o
                 end; simpl; auto. }
    all: destruct (deserialize_not_object env login response data_class w) as [t Ht];
      [rewrite Hjson; exact I | rewrite Ht; reflexivity].
  - destruct (deserialize_not_object env login response data_class w) as [t Ht];
      [rewrite Hjson; exact I | rewrite Ht; reflexivity].
Qed.

(** ** [login] *)

Lemma login_unfold (env : Env) (fuel : nat) :
  login env (S fuel)
  = (response <- login_client_send env (login_request env) ;;
     decoded <- deserialize env (login env fuel) response
                            (Some (LoginResp_from_dict env)) ;;
     store_login_result decoded).
Proof. reflexivity. Qed.

Lemma login_client_send_run (env : Env) (w : World) :
  login_client_send env (login_request env) w
  = match reply (login_server env (login_sent w)) with
    | inl response => (Returned response, login_sent_world env w)
    | inr err => (Raised (OtherException err), login_sent_world env w)
    end.
Proof. reflexivity. Qed.

(** A login that is answered with code 0 and a decodable [data]. *)
Lemma login_returns (env : Env) (fuel : nat) (w : World)
    (response : Response) (fields : dict json) (data : json)
    (result : LoginResp) (seconds : Z) :
  reply (login_server env (login_sent w)) = inl response ->
  resp_json response = Some (JObj fields) ->
  dict_lookup "code" fields = Some (JInt 0) ->
  dict_lookup "data" fields = Some data ->
  LoginResp_from_dict env data = Some result ->
  expires_in result = Some seconds ->
  let sent := login_sent_world env w in
  login env (S fuel) w
  = (Returned result,
     mkWorld (access_token result) (Some (clock sent + 1000 * seconds))
             (clock sent) (login_sent sent) (api_sent sent) (trace sent)).
Proof.
  intros Hreply Hjson Hcode Hdata Hdc Hexp sent.
  rewrite login_unfold. unfold bind at 1.
  rewrite login_client_send_run, Hreply.
  unfold bind at 1.
  rewrite (deserialize_success env (login env fuel) response
             (LoginResp_from_dict env) fields data result _ Hjson Hcode Hdata Hdc).
  unfold store_login_result. rewrite Hexp. reflexivity.
Qed.

(** X9: a login that is answered with code 0 and a [data] field that
    decodes to a result with a lifetime returns that result, stores its
    access token, and sets the expiration to the time of the answer plus
    the lifetime; one request has been sent, with the session as it was. *)
Theorem X9_login_stores_token_and_expiration :
  forall (env : Env) (fuel : nat) (w : World) (response : Response)
         (fields : dict json) (data : json) (result : LoginResp) (seconds : Z),
    reply (login_server env (login_sent w)) = inl response ->
    resp_json response = Some (JObj fields) ->
    dict_lookup "code" fields = Some (JInt 0) ->
    dict_lookup "data" fields = Some data ->
    LoginResp_from_dict env data = Some result ->
    expires_in result = Some seconds ->
    let run := login env (S fuel) w in
    let answered := clock w + Z.of_N (latency (login_server env (login_sent w))) in
    fst run = Returned result
    /\ user_token (snd run) = access_token result
    /\ token_expiration (snd run) = Some (answered + 1000 * seconds)
    /\ clock (snd run) = answered
    /\ trace (snd run)
       = (trace w ++ [EvSend LoginClient (login_request env)
                             (user_token w) (token_expiration w)])%list.
Proof.
  intros env fuel w response fields data result seconds
         Hreply Hjson Hcode Hdata Hdc Hexp run answered.
  subst run.
  rewrite (login_returns env fuel w response fields data result seconds
             Hreply Hjson Hcode Hdata Hdc Hexp).
  repeat split.
Qed.

Lemma X9_witness :
  let env := sample_env login_ok 0 in
  let run := login env 1 initial_world in
  fst run = Returned (mkLoginResp (Some "fresh") (Some 3600))
  /\ user_token (snd run) = Some "fresh"
  /\ token_expiration (snd run) = Some (0 + 0 + 1000 * 3600)
  /\ clock (snd run) = 0 + 0
  /\ trace (snd run) = [EvSend LoginClient (login_request env) None None].
Proof.
  intros env run.
  exact (X9_login_stores_token_and_expiration
           env 0 initial_world login_ok _ _ _ 3600
           eq_refl eq_refl eq_refl eq_refl eq_refl eq_refl).
Defined.

(** X10: a login that fails without code 401 -- the transport raises, or
    the answer is an envelope whose code is neither 0 nor 401 -- raises and
    leaves the bearer token and the expiration as they were: a failed
    login does not log the client out. *)
Theorem X10_failed_login_keeps_session :
  forall (env : Env) (fuel : nat) (w : World),
    (exists err, reply (login_server env (login_sent w)) = inr err)
    \/ (exists response fields,
          reply (login_server env (login_sent w)) = inl response
          /\ resp_json response = Some (JObj fields)
          /\ has_code fields 401 = false
          /\ has_code fields 0 = false) ->
    let run := login env (S fuel) w in
    (exists e, fst run = Raised e)
    /\ snd run = login_sent_world env w
    /\ user_token (snd run) = user_token w
    /\ token_expiration (snd run) = token_expiration w.
Proof.
  intros env fuel w H run.
  assert (Hrun : exists e, run = (Raised e, login_sent_world env w)).
  { subst run. rewrite login_unfold. unfold bind at 1.
    rewrite login_client_send_run.
    destruct H as [[err Hreply] | (response & fields & Hreply & Hjson & H401 & H0)];
      rewrite Hreply.
    - eexists; reflexivity.
    - unfold bind at 1.
      rewrite (deserialize_object env (login env fuel) response
                 (Some (LoginResp_from_dict env)) fields _ Hjson).
      unfold has_code in H401, H0. cbv zeta. rewrite H401, H0.
      change (negb false) with true. cbv iota.
      destruct (py_in_ints _ [2; 3; 7]); [eexists; reflexivity|].
      destruct (_ && _); [eexists; reflexivity|].
      destruct (py_eq_int _ 4); eexists; reflexivity. }
  destruct Hrun as [e ->]. simpl.
  split; [now exists e|]. repeat split.
Qed.

Lemma X10_witness :
  let env := relogin_env (envelope [("code", JInt 2); ("message", JStr "bad password")] [])
                         login_ok in
  let w := logged_in "tok" 100000 in
  let run := login env 1 w in
  (exists e, fst run = Raised e)
  /\ snd run = login_sent_world env w
  /\ user_token (snd run) = Some "tok"
  /\ token_expiration (snd run) = Some 100000.
Proof.
  intros env w.
  apply (X10_failed_login_keeps_session env 0 w).
  right. do 2 eexists. repeat split; reflexivity.
Defined.

(** X11: when a login is answered with code 401 and the login that
    [deserialize] then makes succeeds, the outer login still raises the
    error of the first answer, but the session holds the token of the
    second: two requests have been sent, the second with the session
    cleared. *)
Theorem X11_login_answered_401_then_granted :
  forall (env : Env) (fuel : nat) (w : World) (refused granted : Response)
         (refused_fields fields : dict json) (data : json) (result : LoginResp)
         (seconds : Z),
    reply (login_server env (login_sent w)) = inl refused ->
    resp_json refused = Some (JObj refused_fields) ->
    dict_lookup "code" refused_fields = Some (JInt 401) ->
    reply (login_server env (S (login_sent w))) = inl granted ->
    resp_json granted = Some (JObj fields) ->
    dict_lookup "code" fields = Some (JInt 0) ->
    dict_lookup "data" fields = Some data ->
    LoginResp_from_dict env data = Some result ->
    expires_in result = Some seconds ->
    let run := login env (S (S fuel)) w in
    fst run = Raised (SaicApiException
                        (dict_get "message" (JStr "Unknown error") refused_fields)
                        (Some (JInt 401)))
    /\ user_token (snd run) = access_token result
    /\ login_sent (snd run) = S (S (login_sent w))
    /\ trace (snd run)
       = (trace w ++ [EvSend LoginClient (login_request env)
                             (user_token w) (token_expiration w);
                      EvSend LoginClient (login_request env) None None])%list.
Proof.
  intros env fuel w refused granted refused_fields fields data result seconds
         Hreply1 Hjson1 Hcode1 Hreply2 Hjson2 Hcode2 Hdata Hdc Hexp run.
  set (w1 := before_relogin env (login_sent_world env w)).
  assert (Hw1 : login_sent w1 = S (login_sent w)
                /\ user_token w1 = None /\ token_expiration w1 = None
                /\ trace w1 = trace (login_sent_world env w)).
  { subst w1. unfold before_relogin.
    destruct (truthy_num (relogin_delay (configuration env))); repeat split. }
  destruct Hw1 as (Hsent1 & Htok1 & Hexp1 & Htrace1).
  rewrite <- Hsent1 in Hreply2.
  pose proof (login_returns env fuel w1 granted fields data result seconds
                Hreply2 Hjson2 Hcode2 Hdata Hdc Hexp) as Hinner.
  cbv zeta in Hinner.
  assert (Hrun : run
                 = (Raised (SaicApiException
                              (dict_get "message" (JStr "Unknown error") refused_fields)
                              (Some (JInt 401))),
                    snd (login env (S fuel) w1))).
  { subst run. rewrite login_unfold. unfold bind at 1.
    rewrite login_client_send_run, Hreply1. unfold bind at 1.
    rewrite (deserialize_object env (login env (S fuel)) refused
               (Some (LoginResp_from_dict env)) refused_fields _ Hjson1).
    assert (Hget : dict_get "code" (JInt (-1)) refused_fields = JInt 401)
      by (unfold dict_get; now rewrite Hcode1).
    cbv zeta. rewrite Hget. simpl py_eq_int. cbv iota.
    fold w1. rewrite Hinner. reflexivity. }
  rewrite Hrun, Hinner. simpl.
  rewrite Hsent1, Htrace1. simpl.
  repeat split. rewrite Htok1, Hexp1. now rewrite <- app_assoc.
Qed.

Lemma X11_witness :
  let refused := envelope [("code", JInt 401); ("message", JStr "try again")] [] in
  let env := mkEnv sample_configuration sample_LoginResp_from_dict
                   (first_then refused login_ok 0) (always login_ok 0) in
  let run := login env 2 initial_world in
  fst run = Raised (SaicApiException (JStr "try again") (Some (JInt 401)))
  /\ user_token (snd run) = Some "fresh"
  /\ login_sent (snd run) = 2%nat
  /\ trace (snd run)
     = [EvSend LoginClient (login_request env) None None;
        EvSend LoginClient (login_request env) None None].
Proof.
  intros refused env.
  exact (X11_login_answered_401_then_granted
           env 0 initial_world refused login_ok _ _ _ _ 3600
           eq_refl eq_refl eq_refl eq_refl eq_refl eq_refl eq_refl eq_refl eq_refl).
Defined.

(** The session that a returning [login] leaves. *)
Lemma login_returned_session (env : Env) (fuel : nat) (w w' : World)
    (result : LoginResp) :
  login env fuel w = (Returned result, w') ->
  user_token w' = access_token result
  /\ exists seconds,
      expires_in result = Some seconds
      /\ token_expiration w' = Some (clock w' + 1000 * seconds).
Proof.
  intros Hrun.
  destruct fuel as [|fuel]; [discriminate|].
  rewrite login_unfold in Hrun. unfold bind at 1 in Hrun.
  destruct (login_client_send env (login_request env) w) as [[response|e|] w1];
    try discriminate.
  unfold bind at 1 in Hrun.
  destruct (deserialize env (login env fuel) response
                        (Some (LoginResp_from_dict env)) w1) as [[decoded|e|] w2];
    try discriminate.
  destruct decoded as [lr|]; [|discriminate].
  unfold store_login_result in Hrun.
  destruct (expires_in lr) as [seconds|] eqn:Hexp; [|discriminate].
  injection Hrun as <- <-. simpl.
  split; [reflexivity|]. exists seconds. now split.
Qed.

(** X21: whenever [login] returns, whatever the servers did before, the
    session holds the access token of the result it returns, and an
    expiration that is the lifetime of that result after the present
    time. *)
Theorem X21_login_postcondition :
  forall (env : Env) (fuel : nat) (w w' : World) (result : LoginResp),
    login env fuel w = (Returned result, w') ->
    user_token w' = access_token result
    /\ exists seconds,
        expires_in result = Some seconds
        /\ token_expiration w' = Some (clock w' + 1000 * seconds).
Proof.
  intros env fuel w w' result. apply login_returned_session.
Qed.

Lemma X21_witness :
  let env := sample_env login_ok 40 in
  let w' := snd (login env 1 initial_world) in
  user_token w' = Some "fresh"
  /\ exists seconds,
      Some 3600 = Some seconds
      /\ token_expiration w' = Some (clock w' + 1000 * seconds).
Proof.
  intros env w'.
  exact (X21_login_postcondition
           env 1 initial_world w' (mkLoginResp (Some "fresh") (Some 3600)) eq_refl).
Defined.

(** ** [execute_api_call] *)

Lemma execute_api_call_run (env : Env) {T : Type} (fuel : nat)
    (method path : string) (body : option json)
    (out_type : option (json -> option T)) (params headers : dict string)
    (w : World) :
  let req := api_request env method path body params headers in
  execute_api_call env fuel method path body out_type params headers w
  = if truthy_str (user_token w) then
      match reply (api_server env (api_sent w)) with
      | inl response =>
          deserialize env (login env fuel) response out_type (api_sent_world env w req)
      | inr err => (Raised (OtherException err), api_sent_world env w req)
      end
    else (Raised not_authenticated, w).
Proof.
  intros req. unfold execute_api_call, api_client_send.
  unfold bind at 1. unfold bind at 1. unfold encrypt_request.
  destruct (truthy_str (user_token w)); simpl negb; cbv iota beta zeta;
    [|reflexivity].
  destruct (reply (api_server env (api_sent w))); reflexivity.
Qed.

(** X12: a call made while the token is unset or empty raises the
    not-authenticated error, and nothing has happened: no request is sent,
    the session and the clock are as before. *)
Theorem X12_call_without_token_sends_nothing :
  forall (env : Env) (T : Type) (fuel : nat) (method path : string)
         (body : option json) (out_type : option (json -> option T))
         (params headers : dict string) (w : World),
    user_token w = None \/ user_token w = Some "" ->
    execute_api_call env fuel method path body out_type params headers w
    = (Raised not_authenticated, w).
Proof.
  intros env T fuel method path body out_type params headers w Htok.
  rewrite execute_api_call_run.
  destruct Htok as [-> | ->]; reflexivity.
Qed.

Lemma X12_witness :
  let w := mkWorld (Some "") (Some 100000) 0 0 0 [] in
  execute_api_call (sample_env login_ok 0) 1 "GET" "/vehicle/status" None
                   identity_class [] [] w
  = (Raised not_authenticated, w).
Proof.
  intros w.
  exact (X12_call_without_token_sends_nothing
           (sample_env login_ok 0) json 1 "GET" "/vehicle/status" None
           identity_class [] [] w (or_intror eq_refl)).
Defined.

(** X13: exactly one leading slash of the path is dropped before the path
    is put behind the base URI: a call for a slash followed by [path]
    sends its request to the base URI followed by [path], whatever [path]
    is, so a second slash stays; and a path that does not start with a
    slash is used as it is, so that it and the same path with a slash in
    front give the same run. *)
Theorem X13_leading_slash_is_dropped :
  forall (env : Env) (T : Type) (fuel : nat) (method path : string)
         (body : option json) (out_type : option (json -> option T))
         (params headers : dict string) (w : World),
    let request := fun p => api_request env method p body params headers in
    let call := fun p => execute_api_call env fuel method p body out_type params headers in
    req_url (request (String "/" path)) = base_uri (configuration env) ++ path
    /\ (truthy_str (user_token w) = true ->
        exists tail,
          trace (snd (call (String "/" path) w))
          = (trace w ++ EvSend ApiClient (request (String "/" path))
                               (user_token w) (token_expiration w) :: tail)%list)
    /\ ((forall rest, path <> String "/" rest) ->
        req_url (request path) = base_uri (configuration env) ++ path
        /\ call (String "/" path) w = call path w).
Proof.
  intros env T fuel method path body out_type params headers w request call.
  split; [reflexivity|]. split.
  - intros Hauth. subst call. cbv beta. rewrite execute_api_call_run, Hauth.
    fold (request (String "/" path)).
    destruct (reply (api_server env (api_sent w))) as [response|err].
    + destruct (appending_deserialize env (login env fuel) response out_type
                  (appending_login env fuel)
                  (api_sent_world env w (request (String "/" path))))
        as [tail Htail].
      exists tail. rewrite Htail. simpl. now rewrite <- app_assoc.
    + exists []. reflexivity.
  - intros Hpath.
    assert (Hstrip : strip_leading_slash path = path).
    { destruct path as [|c rest]; [reflexivity|].
      destruct c as [[] [] [] [] [] [] [] []]; try reflexivity.
      exfalso. now apply (Hpath rest). }
    split.
    + subst request. unfold api_request. simpl. now rewrite Hstrip.
    + subst call. unfold execute_api_call.
      change (strip_leading_slash (String "/" path)) with path.
      now rewrite Hstrip.
Qed.

Lemma X13_witness :
  let env := sample_env login_ok 0 in
  let w := logged_in "tok" 100000 in
  let request := fun p => api_request env "GET" p None [] [] in
  let call := fun p => execute_api_call env 1 "GET" p None identity_class [] [] in
  req_url (request "//vehicle/status") = "https://example/api/" ++ "/vehicle/status"
  /\ (exists tail,
        trace (snd (call "//vehicle/status" w))
        = ([] ++ EvSend ApiClient (request "//vehicle/status")
                        (Some "tok") (Some 100000) :: tail)%list)
  /\ (req_url (request "vehicle/status") = "https://example/api/" ++ "vehicle/status"
      /\ call "/vehicle/status" w = call "vehicle/status" w).
Proof.
  intros env w request call.
  pose proof (X13_leading_slash_is_dropped
                env json 1 "GET" "/vehicle/status" None identity_class [] [] w)
    as (Hurl & Hsend & _).
  pose proof (X13_leading_slash_is_dropped
                env json 1 "GET" "vehicle/status" None identity_class [] [] w)
    as (_ & _ & Hplain).
  split; [exact Hurl|]. split; [exact (Hsend eq_refl)|].
  apply Hplain. intros rest. discriminate.
Defined.

(** X17: after [logout], from any session, a call fails with the
    not-authenticated error and sends nothing. *)
Theorem X17_call_after_logout_fails :
  forall (env : Env) (T : Type) (fuel : nat) (method path : string)
         (body : option json) (out_type : option (json -> option T))
         (params headers : dict string) (w : World),
    (logout ;; execute_api_call env fuel method path body out_type params headers) w
    = (Raised not_authenticated, snd (logout w))
    /\ sends (trace (snd (logout w))) = sends (trace w).
Proof.
  intros env T fuel method path body out_type params headers w.
  split; [|reflexivity].
  unfold bind. simpl. rewrite execute_api_call_run. reflexivity.
Qed.

(** X18: after a [login] that returned, a call puts its request on the
    wire exactly when the access token of the login result is a non-empty
    string; a result with no token or an empty one leaves the client
    unauthenticated. *)
Theorem X18_call_after_login :
  forall (env : Env) (T : Type) (fuel fuel' : nat) (method path : string)
         (body : option json) (out_type : option (json -> option T))
         (params headers : dict string) (w w' : World) (result : LoginResp),
    login env fuel w = (Returned result, w') ->
    let run := execute_api_call env fuel' method path body out_type params headers w' in
    if truthy_str (access_token result)
    then exists tail,
        trace (snd run)
        = (trace w' ++ EvSend ApiClient
                              (api_request env method path body params headers)
                              (access_token result) (token_expiration w') :: tail)%list
    else run = (Raised not_authenticated, w').
Proof.
  intros env T fuel fuel' method path body out_type params headers w w' result
         Hlogin run.
  destruct (login_returned_session env fuel w w' result Hlogin) as [Htok _].
  subst run. rewrite execute_api_call_run. rewrite Htok.
  destruct (truthy_str (access_token result)); [|reflexivity].
  destruct (reply (api_server env (api_sent w'))) as [response|err].
  - destruct (appending_deserialize env (login env fuel') response out_type
                (appending_login env fuel')
                (api_sent_world env w'
                   (api_request env method path body params headers)))
      as [tail Htail].
    exists tail. rewrite Htail. simpl. rewrite Htok. now rewrite <- app_assoc.
  - exists []. simpl. now rewrite Htok.
Qed.

Lemma X18_witness :
  let env := sample_env login_ok 0 in
  let w' := snd (login env 1 initial_world) in
  exists tail,
    trace (snd (execute_api_call env 1 "GET" "/vehicle/status" None
                                 identity_class [] [] w'))
    = (trace w' ++ EvSend ApiClient
                          (api_request env "GET" "/vehicle/status" None [] [])
                          (Some "fresh") (token_expiration w') :: tail)%list.
Proof.
  intros env w'.
  exact (X18_call_after_login
           env json 1 1 "GET" "/vehicle/status" None identity_class [] []
           initial_world w' (mkLoginResp (Some "fresh") (Some 3600)) eq_refl).
Defined.

(** ** The callbacks of the retry loop *)

(** X16: [saic_api_after_retry] changes nothing but the [event_id] entry:
    every other keyword argument keeps its value, the dict is left alone
    when it has no [event_id] entry or when the exception is not the retry
    exception, and otherwise the entry becomes the event id the exception
    carries. *)
Theorem X16_after_retry_touches_only_event_id :
  forall (A : Type) (retry_state : RetryCallState A),
    (forall k, k <> "event_id" ->
               dict_lookup k (saic_api_after_retry retry_state)
               = dict_lookup k (kwargs retry_state))
    /\ (dict_mem "event_id" (kwargs retry_state) = false ->
        saic_api_after_retry retry_state = kwargs retry_state)
    /\ (forall e, outcome retry_state = Failed e ->
                  is_SaicApiRetryException e = false ->
                  saic_api_after_retry retry_state = kwargs retry_state)
    /\ (forall msg event_id code,
          outcome retry_state = Failed (SaicApiRetryException msg event_id code) ->
          dict_mem "event_id" (kwargs retry_state) = true ->
          dict_lookup "event_id" (saic_api_after_retry retry_state) = Some event_id).
Proof.
  intros A [kw fut started finished]. unfold saic_api_after_retry. simpl.
  split; [|split; [|split]].
  - intros k Hk. destruct fut as [a|[]]; try reflexivity.
    destruct (dict_mem "event_id" kw); [|reflexivity].
    now apply dict_lookup_update_other.
  - intros Hmem. destruct fut as [a|[]]; try reflexivity. now rewrite Hmem.
  - intros e -> He. destruct e; try reflexivity. discriminate.
  - intros msg event_id code -> Hmem. rewrite Hmem.
    apply dict_lookup_update_same.
Qed.

Lemma X16_witness :
  let retry_state :=
    mkRetryCallState [("vin", "V1"); ("event_id", "0")]
                     (@Failed unit (SaicApiRetryException (JStr "wait") "abc" None))
                     0 100 in
  dict_lookup "event_id" (saic_api_after_retry retry_state) = Some "abc"
  /\ dict_lookup "vin" (saic_api_after_retry retry_state) = Some "V1".
Proof.
  intros retry_state.
  pose proof (X16_after_retry_touches_only_event_id unit retry_state)
    as (Hother & _ & _ & Hnew).
  split.
  - exact (Hnew (JStr "wait") "abc" None eq_refl eq_refl).
  - apply (Hother "vin"). discriminate.
Defined.

(** ** Polling calls *)

Section PollingRuns.

Variable env : Env.
Context {T : Type}.
Variables (fuel : nat) (method path : string) (body : option json).
Variables (out_type : option (json -> option T)).
Variables (params : dict string) (headers : option (dict string)).

Let inner : dict string -> M (option T) :=
  execute_api_call_with_event_id_inner env fuel method path body out_type params headers.

Let loop (rounds : nat) : Z -> dict string -> M (option T) :=
  retrying rounds (stop_after_delay 30)
           (wait_fixed (sms_delivery_delay (configuration env)))
           saic_api_retry_policy saic_api_after_retry inner.

(** An attempt is a plain call with the event id as a header, after the
    attempt is noted. *)
Lemma inner_run (kw : dict string) (event_id : string) (w : World) :
  dict_lookup "event_id" kw = Some event_id ->
  inner kw w
  = execute_api_call env fuel method path body out_type params
      (dict_update "event-id" event_id
                   (match headers with Some h => h | None => [] end))
      (log (EvAttempt (clock w) event_id) w).
Proof.
  intros Hkw. unfold inner, execute_api_call_with_event_id_inner.
  rewrite Hkw. reflexivity.
Qed.

(** A result that the policy does not retry ends the loop. *)
Lemma loop_ends_when_not_retried (rounds : nat) (started : Z)
    (kw : dict string) (w w' : World) (r : Result (option T)) :
  inner kw w = (r, w') ->
  not_retried r = true ->
  loop (S rounds) started kw w = (r, w').
Proof.
  intros Hinner Hr. unfold loop.
  destruct r as [a|e|]; [| |discriminate].
  - rewrite (retrying_done _ _ inner started rounds kw w w' (Succeeded a));
      [reflexivity | unfold attempt; now rewrite Hinner | reflexivity].
  - rewrite (retrying_done _ _ inner started rounds kw w w' (Failed e));
      [reflexivity | unfold attempt; now rewrite Hinner |].
    destruct e; simpl in *; try reflexivity; discriminate.
Qed.

(** An answer that is classified Retryable within the budget is followed
    by an attempt that sends the event id of the classification. *)
Lemma retry_answer_drives_next_attempt (rounds : nat) (response : Response)
    (msg : json) (ev : string) (code : option json)
    (started : Z) (kw : dict string) (previous : string) (w : World) :
  (forall (login : M LoginResp) (w0 : World),
      deserialize env login response out_type w0
      = (Raised (SaicApiRetryException msg ev code), w0)) ->
  dict_lookup "event_id" kw = Some previous ->
  truthy_str (user_token w) = true ->
  reply (api_server env (api_sent w)) = inl response ->
  clock w + Z.of_N (latency (api_server env (api_sent w))) - started < 30000 ->
  let request := polling_request env method path body params headers in
  exists t tail,
    trace (snd (loop (S (S rounds)) started kw w))
    = (trace w
         ++ [EvAttempt (clock w) previous;
             EvSend ApiClient (request previous) (user_token w) (token_expiration w);
             EvAttempt t ev;
             EvSend ApiClient (request ev) (user_token w) (token_expiration w)]
         ++ tail)%list.
Proof.
  intros Hclass Hkw Hauth Hreply Hlat request.
  set (sent := attempt_sent env w previous (request previous)).
  set (raised := SaicApiRetryException msg ev code).
  assert (Hfirst : inner kw w = (Raised raised, sent)).
  { unfold inner.
    rewrite (inner_authenticated env fuel method path body out_type params headers
               kw previous w Hauth Hkw).
    rewrite Hreply. apply Hclass. }
  set (w2 := advance (Z.max 0 (sms_delivery_delay (configuration env))) sent).
  set (kw2 := dict_update "event_id" ev kw).
  assert (Hloop : loop (S (S rounds)) started kw w = loop (S rounds) started kw2 w2).
  { unfold loop.
    rewrite (retrying_again _ _ inner started (S rounds) kw w sent _ Hfirst eq_refl).
    assert (Hstop : @stop_after_delay (option T) 30
                      (mkRetryCallState kw (Failed raised) started (clock sent))
                    = false).
    { unfold stop_after_delay, since_start. simpl. apply Z.leb_gt. lia. }
    rewrite Hstop.
    unfold saic_api_after_retry. simpl. unfold dict_mem. rewrite Hkw.
    reflexivity. }
  rewrite Hloop.
  assert (Hauth2 : truthy_str (user_token w2) = true) by exact Hauth.
  assert (Hkw2 : dict_lookup "event_id" kw2 = Some ev)
    by apply dict_lookup_update_same.
  pose proof (retrying_extends_first_attempt
                (stop_after_delay 30)
                (wait_fixed (sms_delivery_delay (configuration env)))
                saic_api_retry_policy saic_api_after_retry inner started
                (appending_inner env fuel method path body out_type params headers)
                rounds kw2 w2) as Hext.
  assert (Hsent2 : extends (attempt_sent env w2 ev (request ev)) (snd (inner kw2 w2))).
  { unfold inner.
    rewrite (inner_authenticated env fuel method path body out_type params headers
               kw2 ev w2 Hauth2 Hkw2).
    destruct (reply (api_server env (api_sent w2))) as [response2|err].
    - apply appending_deserialize, appending_login.
    - apply extends_refl. }
  destruct (extends_trans _ _ _ Hsent2 Hext) as [tail Htail].
  exists (clock w2), tail. unfold loop. rewrite Htail.
  subst w2 sent. simpl. rewrite <- !app_assoc. reflexivity.
Qed.

End PollingRuns.

(** X14: a polling call whose first attempt ends in a value, or in an
    exception that is neither the retry nor the logout exception (a Fatal
    classification, a transport error), is that attempt and nothing more:
    the plain call with the header event-id "0", with no wait and no second
    request. *)
Theorem X14_polling_ends_at_first_final_outcome :
  forall (env : Env) (T : Type) (rounds fuel : nat) (method path : string)
         (body : option json) (out_type : option (json -> option T))
         (params : dict string) (headers : option (dict string)) (w : World),
    let first :=
      execute_api_call env fuel method path body out_type params
        (dict_update "event-id" "0" (match headers with Some h => h | None => [] end))
        (log (EvAttempt (clock w) "0") w) in
    not_retried (fst first) = true ->
    execute_api_call_with_event_id
      env (S rounds) fuel method path body out_type params headers w
    = first.
Proof.
  intros env T rounds fuel method path body out_type params headers w first Hfinal.
  unfold execute_api_call_with_event_id. unfold bind at 1. unfold now.
  subst first.
  destruct (execute_api_call env fuel method path body out_type params
              (dict_update "event-id" "0"
                           (match headers with Some h => h | None => [] end))
              (log (EvAttempt (clock w) "0") w)) as [r w'] eqn:Hfirst.
  apply loop_ends_when_not_retried; [|exact Hfinal].
  rewrite (inner_run env fuel method path body out_type params headers
             [("event_id", "0")] "0" w eq_refl).
  exact Hfirst.
Qed.

Lemma X14_witness :
  let env := mkEnv sample_configuration sample_LoginResp_from_dict
                   (always login_ok 0)
                   (fun _ => mkReply 120 (inr "connection reset")) in
  let w := logged_in "tok" 100000 in
  execute_api_call_with_event_id
    env 1 1 "GET" "/vehicle/status" None identity_class [] None w
  = execute_api_call env 1 "GET" "/vehicle/status" None identity_class []
                     [("event-id", "0")] (log (EvAttempt 0 "0") w).
Proof.
  intros env w.
  exact (X14_polling_ends_at_first_final_outcome
           env json 0 1 "GET" "/vehicle/status" None identity_class [] None w
           eq_refl).
Defined.



(** X3: an envelope with code 4 that is not pending is classified
    Retryable with the event id "0"; when it answers an attempt of the
    retry loop within the budget, the next attempt sends "0" as its
    event-id header, whatever event id the answered attempt had sent. *)
Theorem X3_code_4_resets_event_id :
  forall (env : Env) (T : Type) (rounds fuel : nat) (method path : string)
         (body : option json) (out_type : option (json -> option T))
         (params : dict string) (headers : option (dict string))
         (response : Response) (fields : dict json),
    resp_json response = Some (JObj fields) ->
    dict_lookup "code" fields = Some (JInt 4) ->
    pending response fields = false ->
    let inner := execute_api_call_with_event_id_inner
                   env fuel method path body out_type params headers in
    let loop := fun n => retrying n (stop_after_delay 30)
                           (wait_fixed (sms_delivery_delay (configuration env)))
                           saic_api_retry_policy saic_api_after_retry inner in
    let request := polling_request env method path body params headers in
    (forall (login : M LoginResp) (w : World),
        deserialize env login response out_type w
        = (Raised (SaicApiRetryException
                     (dict_get "message" (JStr "Unknown error") fields)
                     "0" (Some (JInt 4))), w))
    /\ (forall (started : Z) (kw : dict string) (previous : string) (w : World),
          dict_lookup "event_id" kw = Some previous ->
          truthy_str (user_token w) = true ->
          reply (api_server env (api_sent w)) = inl response ->
          clock w + Z.of_N (latency (api_server env (api_sent w))) - started < 30000 ->
          exists t tail,
            trace (snd (loop (S (S rounds)) started kw w))
            = (trace w
                 ++ [EvAttempt (clock w) previous;
                     EvSend ApiClient (request previous)
                            (user_token w) (token_expiration w);
                     EvAttempt t "0";
                     EvSend ApiClient (request "0")
                            (user_token w) (token_expiration w)]
                 ++ tail)%list).
Proof.
  intros env T rounds fuel method path body out_type params headers response
         fields Hjson Hcode Hpending inner loop request.
  assert (Hclass : forall (login : M LoginResp) (w : World),
             deserialize env login response out_type w
             = (Raised (SaicApiRetryException
                          (dict_get "message" (JStr "Unknown error") fields)
                          "0" (Some (JInt 4))), w)).
  { intros login w.
    rewrite (deserialize_object env login response out_type fields w Hjson).
    assert (Hget : dict_get "code" (JInt (-1)) fields = JInt 4)
      by (unfold dict_get; now rewrite Hcode).
    rewrite Hget. unfold pending in Hpending. rewrite Hpending. reflexivity. }
  split; [exact Hclass|].
  intros started kw previous w Hkw Hauth Hreply Hlat.
  exact (retry_answer_drives_next_attempt
           env fuel method path body out_type params headers rounds response
           _ "0" _ started kw previous w Hclass Hkw Hauth Hreply Hlat).
Qed.

Lemma X3_witness :
  let response := envelope [("code", JInt 4)] [] in
  let env := sample_env response 0 in
  let w := logged_in "tok" 100000 in
  let request := polling_request env "GET" "/vehicle/status" None [] None in
  exists t tail,
    trace (snd (retrying 2 (stop_after_delay 30)
                  (wait_fixed (sms_delivery_delay (configuration env)))
                  saic_api_retry_policy saic_api_after_retry
                  (execute_api_call_with_event_id_inner
                     env 1 "GET" "/vehicle/status" None identity_class [] None)
                  0 [("event_id", "abc")] w))
    = ([] ++ [EvAttempt 0 "abc";
              EvSend ApiClient (request "abc") (Some "tok") (Some 100000);
              EvAttempt t "0";
              EvSend ApiClient (request "0") (Some "tok") (Some 100000)]
          ++ tail)%list.
Proof.
  intros response env w request.
  apply (proj2 (X3_code_4_resets_event_id
                  env json 0 1 "GET" "/vehicle/status" None identity_class [] None
                  response [("code", JInt 4)] eq_refl eq_refl eq_refl)
           0 [("event_id", "abc")] "abc" w); reflexivity.
Defined.

(** X19: an attempt made with a token sends a request whose event-id
    header is the event id of the attempt, also when the caller's headers
    have an event-id entry of their own; the caller's other headers, the
    query parameters and the method are those of the call. *)
Theorem X19_attempt_request_headers :
  forall (env : Env) (T : Type) (fuel : nat) (method path : string)
         (body : option json) (out_type : option (json -> option T))
         (params : dict string) (headers : option (dict string))
         (kw : dict string) (event_id : string) (w : World),
    truthy_str (user_token w) = true ->
    dict_lookup "event_id" kw = Some event_id ->
    let req := polling_request env method path body params headers event_id in
    let given := match headers with Some h => h | None => [] end in
    (exists tail,
       trace (snd (execute_api_call_with_event_id_inner
                     env fuel method path body out_type params headers kw w))
       = (trace w
            ++ [EvAttempt (clock w) event_id;
                EvSend ApiClient req (user_token w) (token_expiration w)]
            ++ tail)%list)
    /\ dict_lookup "event-id" (req_headers req) = Some event_id
    /\ (forall k, k <> "event-id" ->
                  dict_lookup k (req_headers req) = dict_lookup k given)
    /\ req_params req = params
    /\ req_method req = method.
Proof.
  intros env T fuel method path body out_type params headers kw event_id w
         Hauth Hkw req given.
  split.
  - rewrite (inner_authenticated env fuel method path body out_type params headers
               kw event_id w Hauth Hkw).
    fold req.
    assert (H : extends (attempt_sent env w event_id req)
                        (snd match reply (api_server env (api_sent w)) with
                             | inl response =>
                                 deserialize env (login env fuel) response out_type
                                             (attempt_sent env w event_id req)
                             | inr err =>
                                 (Raised (OtherException err),
                                  attempt_sent env w event_id req)
                             end)).
    { destruct (reply (api_server env (api_sent w))) as [response|err].
      - apply appending_deserialize, appending_login.
      - apply extends_refl. }
    destruct H as [tail Htail]. exists tail. rewrite Htail. simpl.
    now rewrite <- !app_assoc.
  - split; [apply dict_lookup_update_same|].
    split; [|split; reflexivity].
    intros k Hk. now apply dict_lookup_update_other.
Qed.

Lemma X19_witness :
  let env := sample_env login_ok 0 in
  let w := logged_in "tok" 100000 in
  let req := polling_request env "GET" "/vehicle/status" None []
                             (Some [("event-id", "mine"); ("x-trace", "7")]) "abc" in
  dict_lookup "event-id" (req_headers req) = Some "abc"
  /\ dict_lookup "x-trace" (req_headers req) = Some "7".
Proof.
  intros env w req.
  pose proof (X19_attempt_request_headers
                env json 1 "GET" "/vehicle/status" None identity_class []
                (Some [("event-id", "mine"); ("x-trace", "7")])
                [("event_id", "abc")] "abc" w eq_refl eq_refl)
    as (_ & Hev & Hother & _).
  split; [exact Hev|].
  apply (Hother "x-trace"). discriminate.
Defined.

(** ** The number of attempts *)

Lemma steady_ret {A : Type} (a : A) : steady (ret a).
Proof. intros w. simpl. split; [lia | reflexivity]. Qed.

Lemma steady_raise {A : Type} (e : Exn) : steady (@raise A e).
Proof. intros w. simpl. split; [lia | reflexivity]. Qed.

Lemma steady_bind {A B : Type} (m : M A) (k : A -> M B) :
  steady m -> (forall a, steady (k a)) -> steady (bind m k).
Proof.
  intros Hm Hk w. unfold bind. specialize (Hm w).
  destruct (m w) as [[a|e|] w']; simpl in *; auto.
  specialize (Hk a w'). destruct Hm, Hk. split; [lia | congruence].
Qed.

Lemma steady_login_client_send (env : Env) (req : Request) :
  steady (login_client_send env req).
Proof.
  intros w. unfold login_client_send. cbv zeta.
  destruct (reply (login_server env (login_sent w))); simpl;
    (split; [lia | count_events; lia]).
Qed.

Lemma steady_before_relogin (env : Env) (w : World) :
  clock w <= clock (before_relogin env w)
  /\ attempts (trace (before_relogin env w)) = attempts (trace w).
Proof.
  unfold before_relogin.
  destruct (truthy_num (relogin_delay (configuration env))); simpl;
    (split; [lia | reflexivity]).
Qed.

Lemma steady_deserialize (env : Env) {T : Type} (login : M LoginResp)
    (response : Response) (data_class : option (json -> option T)) :
  steady login -> steady (deserialize env login response data_class).
Proof.
  intros Hlogin w.
  assert (Hsame : forall r, clock w <= clock (snd (r, w))
                            /\ attempts (trace (snd (@pair (Result (option T)) _ r w)))
                               = attempts (trace w))
    by (intros r; simpl; split; [lia | reflexivity]).
  destruct (resp_json response) as [j|] eqn:Hjson.
  - destruct j as [ | | | | | fields].
    6:{ rewrite (deserialize_object env login response data_class fields w Hjson).
        cbv zeta.
        destruct (py_eq_int _ 401).
        - specialize (Hlogin (before_relogin env w)).
          destruct (steady_before_relogin env w) as [Hc Ha].
          destruct (login (before_relogin env w)) as [[lr|e|] w']; simpl in *;
            (split; [lia | destruct Hlogin; congruence]).
        - repeat match goal with
                 | |- context [if ?b then _ else _] => destruct b
                 | |- context [match ?o with Some _ => _ | None => _ end] => destruct o
                 end; apply Hsame. }
    all: destruct (deserialize_not_object env login response data_class w) as [t Ht];
      [rewrite Hjson; exact I | rewrite Ht; apply Hsame].
  - destruct (deserialize_not_object env login response data_class w) as [t Ht];
      [rewrite Hjson; exact I | rewrite Ht; apply Hsame].
Qed.

Lemma steady_login (env : Env) (fuel : nat) : steady (login env fuel).
Proof.
  induction fuel as [|fuel IH].
  - intros w. simpl. split; [lia | reflexivity].
  - rewrite login_unfold.
    apply steady_bind; [apply steady_login_client_send|].
    intros response. apply steady_bind; [now apply steady_deserialize|].
    intros [result|]; [|apply steady_raise].
    intros w. unfold store_login_result.
    destruct (expires_in result); simpl; (split; [lia | reflexivity]).
Qed.

Lemma steady_execute_api_call (env : Env) {T : Type} (fuel : nat)
    (method path : string) (body : option json)
    (out_type : option (json -> option T)) (params headers : dict string) :
  steady (execute_api_call env fuel method path body out_type params headers).
Proof.
  intros w. rewrite execute_api_call_run.
  destruct (truthy_str (user_token w)); [|simpl; split; [lia | reflexivity]].
  set (sent := api_sent_world env w
                 (api_request env method path body params headers)).
  assert (Hsent : clock w <= clock sent
                  /\ attempts (trace sent) = attempts (trace w))
    by (subst sent; simpl; split; [lia | count_events; lia]).
  destruct (reply (api_server env (api_sent w))) as [response|err].
  - destruct (steady_deserialize env (login env fuel) response out_type
                (steady_login env fuel) sent) as [Hc Ha].
    destruct Hsent. split; [lia | congruence].
  - exact Hsent.
Qed.

(** One call of the retried function is at most one attempt. *)
Lemma inner_one_attempt (env : Env) {T : Type} (fuel : nat)
    (method path : string) (body : option json)
    (out_type : option (json -> option T))
    (params : dict string) (headers : option (dict string))
    (kw : dict string) (w : World) :
  let w' := snd (execute_api_call_with_event_id_inner
                   env fuel method path body out_type params headers kw w) in
  clock w <= clock w'
  /\ (attempts (trace w') <= S (attempts (trace w)))%nat.
Proof.
  intros w'. subst w'.
  destruct (dict_lookup "event_id" kw) as [event_id|] eqn:Hkw.
  - rewrite (inner_run env fuel method path body out_type params headers
               kw event_id w Hkw).
    destruct (steady_execute_api_call env fuel method path body out_type params
                (dict_update "event-id" event_id
                             (match headers with Some h => h | None => [] end))
                (log (EvAttempt (clock w) event_id) w)) as [Hc Ha].
    split; [exact Hc|]. rewrite Ha. count_events. lia.
  - unfold execute_api_call_with_event_id_inner. rewrite Hkw. simpl.
    split; lia.
Qed.

Lemma waits_left_nonneg (d c : Z) : 0 <= waits_left d c.
Proof. unfold waits_left. lia. Qed.

(** Whatever the attempts do, the loop makes at most one attempt more than
    the waits that fit into the rest of the budget. *)
Lemma retrying_attempts_bound (env : Env) {T : Type} (fuel : nat)
    (method path : string) (body : option json)
    (out_type : option (json -> option T))
    (params : dict string) (headers : option (dict string))
    (d started : Z) :
  0 < d ->
  forall (rounds : nat) (kw : dict string) (w : World),
    Z.of_nat (attempts (trace (snd
      (retrying rounds (stop_after_delay 30) (wait_fixed d)
                saic_api_retry_policy saic_api_after_retry
                (execute_api_call_with_event_id_inner
                   env fuel method path body out_type params headers)
                started kw w))))
    <= Z.of_nat (attempts (trace w)) + waits_left d (clock w - started) + 1.
Proof.
  intros Hd.
  set (inner := execute_api_call_with_event_id_inner
                  env fuel method path body out_type params headers).
  induction rounds as [|rounds IH]; intros kw w.
  - simpl. pose proof (waits_left_nonneg d (clock w - started)). lia.
  - pose proof (inner_one_attempt env fuel method path body out_type params headers
                  kw w) as [Hclock Hatt].
    fold inner in Hclock, Hatt.
    pose proof (waits_left_nonneg d (clock w - started)) as Hnn.
    destruct (inner kw w) as [[a|e|] w1] eqn:Hinner; simpl snd in Hclock, Hatt.
    + rewrite (retrying_done _ _ inner started rounds kw w w1 (Succeeded a));
        [simpl; lia | unfold attempt; now rewrite Hinner | reflexivity].
    + destruct (saic_api_retry_policy
                  (mkRetryCallState kw (@Failed (option T) e) started (clock w1)))
        eqn:Hpol.
      * rewrite (retrying_again _ _ inner started rounds kw w w1 e Hinner Hpol).
        unfold stop_after_delay at 1. unfold since_start. simpl outcome_timestamp.
        simpl start_time.
        destruct (1000 * 30 <=? clock w1 - started) eqn:Hstop; [simpl; lia|].
        apply Z.leb_gt in Hstop.
        set (w2 := advance (Z.max 0 (wait_fixed d
                     (mkRetryCallState kw (@Failed (option T) e) started (clock w1)))) w1).
        assert (Hw2 : clock w2 = clock w1 + d /\ trace w2 = trace w1)
          by (subst w2; unfold wait_fixed, advance; simpl; split; [lia | reflexivity]).
        destruct Hw2 as [Hc2 Ht2].
        specialize (IH (saic_api_after_retry
                          (mkRetryCallState kw (@Failed (option T) e) started (clock w1)))
                       w2).
        destruct (waits_left_step d (clock w - started) (clock w2 - started))
          as [Hle _]; [lia | lia | lia |].
        rewrite Ht2 in IH. lia.
      * rewrite (retrying_done _ _ inner started rounds kw w w1 (Failed e));
          [simpl; lia | unfold attempt; now rewrite Hinner | exact Hpol].
    + simpl. unfold bind at 1. unfold attempt. fold inner. rewrite Hinner.
      simpl. lia.
Qed.

(** X20: whatever the servers answer, and however long they take, a polling
    call with a positive polling interval makes at most one attempt more
    than the number of intervals that fit into the 30 seconds: at most 7
    attempts for an interval of 5 seconds. *)
Theorem X20_polling_attempts_are_bounded :
  forall (env : Env) (T : Type) (rounds fuel : nat) (method path : string)
         (body : option json) (out_type : option (json -> option T))
         (params : dict string) (headers : option (dict string)) (w : World),
    let d := sms_delivery_delay (configuration env) in
    0 < d ->
    let run := execute_api_call_with_event_id
                 env rounds fuel method path body out_type params headers w in
    Z.of_nat (attempts (trace (snd run)))
    <= Z.of_nat (attempts (trace w)) + waits_left d 0 + 1
    /\ (d = 5000 ->
        (attempts (trace (snd run)) <= attempts (trace w) + 7)%nat).
Proof.
  intros env T rounds fuel method path body out_type params headers w d Hd run.
  assert (H : Z.of_nat (attempts (trace (snd run)))
              <= Z.of_nat (attempts (trace w)) + waits_left d 0 + 1).
  { subst run. unfold execute_api_call_with_event_id. unfold bind at 1. unfold now.
    pose proof (retrying_attempts_bound env fuel method path body out_type params
                  headers d (clock w) Hd rounds [("event_id", "0")] w) as Hb.
    replace (clock w - clock w) with 0 in Hb by lia. exact Hb. }
  split; [exact H|].
  intros H5. rewrite H5 in H. change (waits_left 5000 0) with 6 in H. lia.
Qed.

Lemma X20_witness :
  let env := sample_env (envelope [("code", JInt 4)] []) 0 in
  let run := execute_api_call_with_event_id
               env 50 1 "GET" "/vehicle/status" None identity_class [] None
               (logged_in "tok" 100000) in
  Z.of_nat (attempts (trace (snd run))) <= Z.of_nat 0 + waits_left 5000 0 + 1
  /\ (5000 = 5000 -> (attempts (trace (snd run)) <= 0 + 7)%nat).
Proof.
  intros env run.
  apply (X20_polling_attempts_are_bounded
           env json 50 1 "GET" "/vehicle/status" None identity_class [] None
           (logged_in "tok" 100000)).
  reflexivity.
Defined.

(** ** A call from end to end *)

(** X22: a call made with a token and answered with code 0 and a [data]
    field that the result type decodes returns the decoded payload; exactly
    one request has gone out, to the base URI followed by the path, with
    the body as JSON when there is one and no body otherwise, and the
    session is untouched. *)
Theorem X22_successful_call :
  forall (env : Env) (T : Type) (fuel : nat) (method path : string)
         (body : option json) (dc : json -> option T)
         (params headers : dict string) (w : World)
         (response : Response) (fields : dict json) (data : json) (v : T),
    truthy_str (user_token w) = true ->
    reply (api_server env (api_sent w)) = inl response ->
    resp_json response = Some (JObj fields) ->
    dict_lookup "code" fields = Some (JInt 0) ->
    dict_lookup "data" fields = Some data ->
    dc data = Some v ->
    let req := api_request env method path body params headers in
    let run := execute_api_call env fuel method path body (Some dc) params headers w in
    fst run = Returned (Some v)
    /\ trace (snd run)
       = (trace w ++ [EvSend ApiClient req (user_token w) (token_expiration w)])%list
    /\ api_sent (snd run) = S (api_sent w)
    /\ login_sent (snd run) = login_sent w
    /\ user_token (snd run) = user_token w
    /\ token_expiration (snd run) = token_expiration w
    /\ req_url req = base_uri (configuration env) ++ strip_leading_slash path
    /\ req_body req = match body with Some b => JsonBody b | None => NoBody end.
Proof.
  intros env T fuel method path body dc params headers w response fields data v
         Hauth Hreply Hjson Hcode Hdata Hdc req run.
  subst run. rewrite execute_api_call_run, Hauth, Hreply.
  rewrite (deserialize_success env (login env fuel) response dc fields data v _
             Hjson Hcode Hdata Hdc).
  repeat split.
Qed.

Lemma X22_witness :
  let response := envelope [("code", JInt 0); ("data", JObj [("soc", JInt 80)])] [] in
  let env := sample_env response 30 in
  let w := logged_in "tok" 100000 in
  let run := execute_api_call env 1 "POST" "/vehicle/charging"
                              (Some (JObj [("vin", JStr "V1")])) identity_class [] [] w in
  fst run = Returned (Some (JObj [("soc", JInt 80)]))
  /\ api_sent (snd run) = 1%nat
  /\ user_token (snd run) = Some "tok".
Proof.
  intros response env w run.
  pose proof (X22_successful_call
                env json 1 "POST" "/vehicle/charging"
                (Some (JObj [("vin", JStr "V1")])) (fun j => Some j) [] [] w
                response _ (JObj [("soc", JInt 80)]) _
                eq_refl eq_refl eq_refl eq_refl eq_refl eq_refl)
    as (Hfst & _ & Hsent & _ & Htok & _).
  split; [exact Hfst|]. split; [exact Hsent | exact Htok].
Defined.

(** X23: an exception of the transport during a call is not wrapped: it
    leaves [execute_api_call] as it is, not as a [SaicApiException], after
    the request has gone out, and the session is as before. *)
Theorem X23_transport_error_is_not_wrapped :
  forall (env : Env) (T : Type) (fuel : nat) (method path : string)
         (body : option json) (out_type : option (json -> option T))
         (params headers : dict string) (w : World) (err : string),
    truthy_str (user_token w) = true ->
    reply (api_server env (api_sent w)) = inr err ->
    let run := execute_api_call env fuel method path body out_type params headers w in
    fst run = Raised (OtherException err)
    /\ is_SaicApiException (OtherException err) = false
    /\ snd run = api_sent_world env w (api_request env method path body params headers)
    /\ user_token (snd run) = user_token w
    /\ token_expiration (snd run) = token_expiration w.
Proof.
  intros env T fuel method path body out_type params headers w err Hauth Hreply run.
  subst run. rewrite execute_api_call_run, Hauth, Hreply.
  repeat split.
Qed.

Lemma X23_witness :
  let env := mkEnv sample_configuration sample_LoginResp_from_dict
                   (always login_ok 0)
                   (fun _ => mkReply 120 (inr "connection reset")) in
  let w := logged_in "tok" 100000 in
  let run := execute_api_call env 1 "GET" "/vehicle/status" None identity_class [] [] w in
  fst run = Raised (OtherException "connection reset")
  /\ is_SaicApiException (OtherException "connection reset") = false
  /\ snd run = api_sent_world env w (api_request env "GET" "/vehicle/status" None [] [])
  /\ user_token (snd run) = Some "tok"
  /\ token_expiration (snd run) = Some 100000.
Proof.
  intros env w.
  exact (X23_transport_error_is_not_wrapped
           env json 1 "GET" "/vehicle/status" None identity_class [] [] w
           "connection reset" eq_refl eq_refl).
Defined.
